(** * Hotel back end: submissions and rooms over an in-memory SQLite store

    A shallow embedding of [src/server.js].  The file holds three variants
    of the same Express service; the third one (submissions and rooms, with
    create, update and delete of rooms) is the main model, the first one
    ("comprehensive error handling") is embedded in [Module V1].

    Conventions.
    - Text is a Rocq [string]: the UTF-8 bytes of the JavaScript string,
      which is how SQLite stores and compares TEXT (a string with an
      unpaired surrogate has no such bytes and is not covered).
    - A request field is absent ([Undefined]), [Null], or a value of the
      JSON type the data model gives it.
    - A handler is a function from the store (and the clocks it reads) to
      the new store and what the request observes: a response, or an
      exception thrown inside the database callback.
    - SQLite is modelled by the statements the source issues: tables are
      finite maps from rowid to row, AUTOINCREMENT keeps the largest rowid
      ever handed out, NOT NULL and UNIQUE are checked on INSERT and UPDATE. *)

From Stdlib Require Import ZArith NArith Ascii String.
From stdpp Require Import base option list sorting strings gmap fin_maps.

Local Open Scope Z_scope.

(** ** JavaScript values *)

(** A JSON number, kept exactly: (-1)^neg * mant * 10^expo. *)
Record jsnum := Num { neg : bool; mant : N; expo : Z }.

#[warnings="-register-all"]
Inductive jsval :=
| JUndefined
| JNull
| JBool (b : bool)
| JNum (n : jsnum)
| JStr (s : string)
| JArr (items : list jsval)
| JObj (members : list (string * jsval)).

Definition num_of_Z (z : Z) : jsnum :=
  {| neg := z <? 0; mant := Z.abs_N z; expo := 0 |}.

Definition num_of_nat (n : nat) : jsnum := num_of_Z (Z.of_nat n).

(** The double nearest to the decimal is zero exactly when the decimal is at
    most 2^-1075 in absolute value (half the least subnormal, ties to even). *)
Definition rounds_to_zero (n : jsnum) : bool :=
  if 0 <=? expo n then (mant n =? 0)%N
  else (mant n * 2 ^ 1075 <=? 10 ^ Z.to_N (- expo n))%N.

(** Request fields: destructuring [req.body] gives [undefined] for an absent
    member. *)
Inductive field (A : Type) :=
| Undefined
| Null
| Val (a : A).
Arguments Undefined {A}.
Arguments Null {A}.
Arguments Val {A} a.

(** ToBoolean. *)
Class Truthy (A : Type) := truthy : A → bool.

#[global] Instance truthy_string : Truthy string :=
  fun s => match s with EmptyString => false | String _ _ => true end.
#[global] Instance truthy_jsnum : Truthy jsnum :=
  fun n => negb (rounds_to_zero n).
#[global] Instance truthy_array {A} : Truthy (list A) := fun _ => true.
#[global] Instance truthy_field {A} `{Truthy A} : Truthy (field A) :=
  fun x => match x with Val a => truthy a | _ => false end.
#[global] Instance truthy_jsval : Truthy jsval :=
  fun v =>
    match v with
    | JUndefined | JNull => false
    | JBool b => b
    | JNum n => truthy n
    | JStr s => truthy s
    | JArr _ | JObj _ => true
    end.

(** [x || d] on a request field. *)
Definition or_default {A} `{Truthy A} (x : field A) (d : A) : A :=
  match x with
  | Val a => if truthy a then a else d
  | _ => d
  end.

(** [x || d] on a value. *)
Definition or_value (x d : jsval) : jsval := if truthy x then x else d.

(** [!!x] *)
Definition bang_bang {A} `{Truthy A} (x : A) : jsval := JBool (truthy x).

(** [Array.prototype.includes] on an array of strings: a value that is not a
    string is never found. *)
Definition includes (l : list string) (x : field string) : bool :=
  match x with
  | Val s => bool_decide (s ∈ l)
  | _ => false
  end.

(** [Array.prototype.join]. *)
Definition join (sep : string) (l : list string) : string := String.concat sep l.

(** A string inside a template literal. *)
Definition interpolate (x : field string) : string :=
  match x with
  | Undefined => "undefined"
  | Null => "null"
  | Val s => s
  end.

(** Own-property lookup on an object built by [JSON.parse]: the last
    duplicate of a key wins. *)
Fixpoint member (k : string) (kvs : list (string * jsval)) : option jsval :=
  match kvs with
  | [] => None
  | (k', v) :: rest =>
      match member k rest with
      | Some w => Some w
      | None => if String.eqb k k' then Some v else None
      end
  end.

(** [v.k] for the keys the handlers read (none of them is inherited from a
    prototype): [None] is the TypeError on [null] and [undefined]. *)
Definition get (v : jsval) (k : string) : option jsval :=
  match v with
  | JUndefined | JNull => None
  | JObj kvs => Some (default JUndefined (member k kvs))
  | _ => Some JUndefined
  end.

(** ** JSON text *)

Definition ascii_lt (c : ascii) (n : N) : bool := (N_of_ascii c <? n)%N.

Definition hex_digit (n : N) : ascii :=
  if (n <? 10)%N then ascii_of_N (48 + n) else ascii_of_N (87 + n).

(** QuoteJSONString, one character at a time: the two-character escapes,
    [\u00xx] in lower-case hex for the other control characters, everything
    else as it is.  (034 is the double quote, 092 the backslash.) *)
Definition quote_char (c : ascii) : string :=
  match c with
  | "034"%char => String "092" (String "034" EmptyString)
  | "092"%char => String "092" (String "092" EmptyString)
  | "008"%char => String "092" (String "b" EmptyString)
  | "009"%char => String "092" (String "t" EmptyString)
  | "010"%char => String "092" (String "n" EmptyString)
  | "012"%char => String "092" (String "f" EmptyString)
  | "013"%char => String "092" (String "r" EmptyString)
  | _ =>
      if ascii_lt c 32 then
        String "092" (String "u" (String "0" (String "0"
          (String (hex_digit (N_of_ascii c / 16))
             (String (hex_digit (N_of_ascii c mod 16)) EmptyString)))))
      else String c EmptyString
  end.

Fixpoint quote_chars (s : string) : string :=
  match s with
  | EmptyString => EmptyString
  | String c rest => quote_char c +:+ quote_chars rest
  end.

Definition quote (s : string) : string :=
  String "034" (quote_chars s +:+ String "034" EmptyString).

(** [JSON.stringify] of an array of strings (no indentation). *)
Definition JSON_stringify (l : list string) : string :=
  "[" +:+ join "," (quote <$> l) +:+ "]".

(** *** JSON.parse

    A pushdown recogniser that reads the text once, left to right.  The
    stack holds the arrays and objects that are still open. *)

(** A decoded string character: a byte of the text, or the code unit of a
    [\uXXXX] escape. *)
Inductive code :=
| Byte (b : ascii)
| Unit16 (u : N).

Definition utf8 (cp : N) : string :=
  if (cp <? 128)%N then String (ascii_of_N cp) EmptyString
  else if (cp <? 2048)%N then
    String (ascii_of_N (192 + cp / 64))
      (String (ascii_of_N (128 + cp mod 64)) EmptyString)
  else if (cp <? 65536)%N then
    String (ascii_of_N (224 + cp / 4096))
      (String (ascii_of_N (128 + (cp / 64) mod 64))
         (String (ascii_of_N (128 + cp mod 64)) EmptyString))
  else
    String (ascii_of_N (240 + cp / 262144))
      (String (ascii_of_N (128 + (cp / 4096) mod 64))
         (String (ascii_of_N (128 + (cp / 64) mod 64))
            (String (ascii_of_N (128 + cp mod 64)) EmptyString))).

Definition high_surrogate (u : N) : bool := (55296 <=? u)%N && (u <? 56320)%N.
Definition low_surrogate (u : N) : bool := (56320 <=? u)%N && (u <? 57344)%N.

(** The text of a decoded string: an escaped surrogate pair is one code
    point; an unpaired surrogate escape is kept in the three-byte form. *)
Fixpoint decode (cs : list code) : string :=
  match cs with
  | [] => EmptyString
  | Byte b :: rest => String b (decode rest)
  | Unit16 u :: rest =>
      if high_surrogate u then
        match rest with
        | Unit16 v :: rest' =>
            if low_surrogate v
            then utf8 (65536 + (u - 55296) * 1024 + (v - 56320)) +:+ decode rest'
            else utf8 u +:+ decode rest
        | _ => utf8 u +:+ decode rest
        end
      else utf8 u +:+ decode rest
  end.

Inductive frame :=
| InArr (done : list jsval)
| InObj (done : list (string * jsval)) (key : string).

Inductive strmode :=
| Plain
| Backslash
| Hex (todo : nat) (acc : N).

Inductive strgoal :=
| AsValue
| AsKey (done : list (string * jsval)).

Inductive numphase :=
| NMinus | NZero | NInt | NDot | NFrac | NE | NESign | NExp.

(** The digits read so far: sign, mantissa, number of fraction digits, sign
    and digits of the exponent. *)
Record numacc := NumAcc {
  a_neg : bool; a_mant : N; a_frac : Z; a_eneg : bool; a_exp : N }.

Definition num_value (a : numacc) : jsnum :=
  {| neg := a_neg a;
     mant := a_mant a;
     expo := (if a_eneg a then - Z.of_N (a_exp a) else Z.of_N (a_exp a)) - a_frac a |}.

Inductive pstate :=
| Value (stk : list frame)
| ArrOpen (stk : list frame)
| ObjOpen (stk : list frame)
| Key (done : list (string * jsval)) (stk : list frame)
| Colon (done : list (string * jsval)) (key : string) (stk : list frame)
| Str (goal : strgoal) (acc : list code) (mode : strmode) (stk : list frame)
| Number (ph : numphase) (a : numacc) (stk : list frame)
| Word (rest : string) (v : jsval) (stk : list frame)
| ArrNext (done : list jsval) (stk : list frame)
| ObjNext (done : list (string * jsval)) (stk : list frame)
| Done (v : jsval).

Definition is_ws (c : ascii) : bool :=
  match c with
  | " "%char | "009"%char | "010"%char | "013"%char => true
  | _ => false
  end.

Definition digit_of (c : ascii) : option N :=
  let n := N_of_ascii c in
  if (48 <=? n)%N && (n <=? 57)%N then Some (n - 48)%N else None.

Definition hex_of (c : ascii) : option N :=
  let n := N_of_ascii c in
  if (48 <=? n)%N && (n <=? 57)%N then Some (n - 48)%N
  else if (97 <=? n)%N && (n <=? 102)%N then Some (n - 87)%N
  else if (65 <=? n)%N && (n <=? 70)%N then Some (n - 55)%N
  else None.

(** A finished value goes to the innermost open array or object. *)
Definition deliver (v : jsval) (stk : list frame) : pstate :=
  match stk with
  | [] => Done v
  | InArr done :: stk' => ArrNext (v :: done) stk'
  | InObj done key :: stk' => ObjNext ((key, v) :: done) stk'
  end.

Definition fresh_num (n : bool) (m : N) : numacc :=
  {| a_neg := n; a_mant := m; a_frac := 0; a_eneg := false; a_exp := 0%N |}.

(** The first character of a value. *)
Definition start_value (c : ascii) (stk : list frame) : option pstate :=
  match c with
  | "{"%char => Some (ObjOpen stk)
  | "["%char => Some (ArrOpen stk)
  | "034"%char => Some (Str AsValue [] Plain stk)
  | "-"%char => Some (Number NMinus (fresh_num true 0) stk)
  | "0"%char => Some (Number NZero (fresh_num false 0) stk)
  | "t"%char => Some (Word "rue" (JBool true) stk)
  | "f"%char => Some (Word "alse" (JBool false) stk)
  | "n"%char => Some (Word "ull" JNull stk)
  | _ =>
      match digit_of c with
      | Some d => Some (Number NInt (fresh_num false d) stk)
      | None => None
      end
  end.

(** What may follow a finished value. *)
Definition after_value (st : pstate) (c : ascii) : option pstate :=
  match st with
  | ArrNext done stk =>
      if is_ws c then Some st
      else match c with
           | ","%char => Some (Value (InArr done :: stk))
           | "]"%char => Some (deliver (JArr (rev done)) stk)
           | _ => None
           end
  | ObjNext done stk =>
      if is_ws c then Some st
      else match c with
           | ","%char => Some (Key done stk)
           | "}"%char => Some (deliver (JObj (rev done)) stk)
           | _ => None
           end
  | Done v => if is_ws c then Some st else None
  | _ => None
  end.

Inductive numstep :=
| More (ph : numphase) (a : numacc)
| Ended
| Bad.

Definition push_digit (a : numacc) (d : N) : numacc :=
  {| a_neg := a_neg a; a_mant := (a_mant a * 10 + d)%N; a_frac := a_frac a;
     a_eneg := a_eneg a; a_exp := a_exp a |}.
Definition push_frac (a : numacc) (d : N) : numacc :=
  {| a_neg := a_neg a; a_mant := (a_mant a * 10 + d)%N; a_frac := a_frac a + 1;
     a_eneg := a_eneg a; a_exp := a_exp a |}.
Definition push_exp (a : numacc) (d : N) : numacc :=
  {| a_neg := a_neg a; a_mant := a_mant a; a_frac := a_frac a;
     a_eneg := a_eneg a; a_exp := (a_exp a * 10 + d)%N |}.
Definition neg_exp (a : numacc) : numacc :=
  {| a_neg := a_neg a; a_mant := a_mant a; a_frac := a_frac a;
     a_eneg := true; a_exp := a_exp a |}.

Definition is_e (c : ascii) : bool :=
  match c with "e"%char | "E"%char => true | _ => false end.
Definition is_dot (c : ascii) : bool :=
  match c with "."%char => true | _ => false end.

(** The number grammar: an optional minus, then 0 or a digit string without
    leading zero, then an optional fraction (a dot and digits), then an
    optional exponent (e or E, an optional sign, digits). *)
Definition num_step (ph : numphase) (a : numacc) (c : ascii) : numstep :=
  match ph with
  | NMinus =>
      match digit_of c with
      | Some d => if (d =? 0)%N then More NZero a else More NInt (push_digit a d)
      | None => Bad
      end
  | NZero =>
      if is_dot c then More NDot a else if is_e c then More NE a else Ended
  | NInt =>
      match digit_of c with
      | Some d => More NInt (push_digit a d)
      | None => if is_dot c then More NDot a else if is_e c then More NE a else Ended
      end
  | NDot =>
      match digit_of c with
      | Some d => More NFrac (push_frac a d)
      | None => Bad
      end
  | NFrac =>
      match digit_of c with
      | Some d => More NFrac (push_frac a d)
      | None => if is_e c then More NE a else Ended
      end
  | NE =>
      match c with
      | "+"%char => More NESign a
      | "-"%char => More NESign (neg_exp a)
      | _ => match digit_of c with
             | Some d => More NExp (push_exp a d)
             | None => Bad
             end
      end
  | NESign =>
      match digit_of c with
      | Some d => More NExp (push_exp a d)
      | None => Bad
      end
  | NExp =>
      match digit_of c with
      | Some d => More NExp (push_exp a d)
      | None => Ended
      end
  end.

Definition num_complete (ph : numphase) : bool :=
  match ph with
  | NZero | NInt | NFrac | NExp => true
  | _ => false
  end.

Definition close_string (goal : strgoal) (s : string) (stk : list frame) : pstate :=
  match goal with
  | AsValue => deliver (JStr s) stk
  | AsKey done => Colon done s stk
  end.

Definition str_step (goal : strgoal) (acc : list code) (mode : strmode)
    (stk : list frame) (c : ascii) : option pstate :=
  match mode with
  | Plain =>
      match c with
      | "034"%char => Some (close_string goal (decode acc) stk)
      | "092"%char => Some (Str goal acc Backslash stk)
      | _ => if ascii_lt c 32 then None
             else Some (Str goal (acc ++ [Byte c]) Plain stk)
      end
  | Backslash =>
      let lit b := Some (Str goal (acc ++ [Byte b]) Plain stk) in
      match c with
      | "034"%char => lit "034"%char
      | "092"%char => lit "092"%char
      | "/"%char => lit "/"%char
      | "b"%char => lit "008"%char
      | "f"%char => lit "012"%char
      | "n"%char => lit "010"%char
      | "r"%char => lit "013"%char
      | "t"%char => lit "009"%char
      | "u"%char => Some (Str goal acc (Hex 4 0) stk)
      | _ => None
      end
  | Hex todo u =>
      match hex_of c, todo with
      | Some d, 1%nat => Some (Str goal (acc ++ [Unit16 (u * 16 + d)]) Plain stk)
      | Some d, S todo' => Some (Str goal acc (Hex todo' (u * 16 + d)) stk)
      | _, _ => None
      end
  end.

Definition step (st : pstate) (c : ascii) : option pstate :=
  match st with
  | Value stk => if is_ws c then Some st else start_value c stk
  | ArrOpen stk =>
      if is_ws c then Some st
      else match c with
           | "]"%char => Some (deliver (JArr []) stk)
           | _ => start_value c (InArr [] :: stk)
           end
  | ObjOpen stk =>
      if is_ws c then Some st
      else match c with
           | "}"%char => Some (deliver (JObj []) stk)
           | "034"%char => Some (Str (AsKey []) [] Plain stk)
           | _ => None
           end
  | Key done stk =>
      if is_ws c then Some st
      else match c with
           | "034"%char => Some (Str (AsKey done) [] Plain stk)
           | _ => None
           end
  | Colon done key stk =>
      if is_ws c then Some st
      else match c with
           | ":"%char => Some (Value (InObj done key :: stk))
           | _ => None
           end
  | Str goal acc mode stk => str_step goal acc mode stk c
  | Number ph a stk =>
      match num_step ph a c with
      | More ph' a' => Some (Number ph' a' stk)
      | Ended => after_value (deliver (JNum (num_value a)) stk) c
      | Bad => None
      end
  | Word rest v stk =>
      match rest with
      | String c' rest' =>
          if Ascii.eqb c c' then
            Some (match rest' with
                  | EmptyString => deliver v stk
                  | _ => Word rest' v stk
                  end)
          else None
      | EmptyString => None
      end
  | ArrNext _ _ | ObjNext _ _ | Done _ => after_value st c
  end.

Definition finish (st : pstate) : option jsval :=
  match st with
  | Done v => Some v
  | Number ph a [] => if num_complete ph then Some (JNum (num_value a)) else None
  | _ => None
  end.

Fixpoint run (st : pstate) (text : string) : option jsval :=
  match text with
  | EmptyString => finish st
  | String c rest =>
      match step st c with
      | Some st' => run st' rest
      | None => None
      end
  end.

(** [JSON.parse text]; [None] is the SyntaxError. *)
Definition JSON_parse (text : string) : option jsval := run (Value []) text.
Arguments JSON_parse : simpl never.


(** How [JSON.parse] reads back a character written by [quote_char]. *)
Definition code_of (c : ascii) : code :=
  match c with
  | "008"%char | "009"%char | "010"%char | "012"%char | "013"%char => Byte c
  | _ => if ascii_lt c 32 then Unit16 (N_of_ascii c) else Byte c
  end.

Fixpoint codes (s : string) : list code :=
  match s with
  | EmptyString => []
  | String c rest => code_of c :: codes rest
  end.

(** ** The SQLite store *)

Module submissions.
Record row := Row {
  student_name : string;
  work_type : string;
  content : string;
  created_at : string }.
End submissions.

Module rooms.
Record row := Row {
  number : string;
  type : string;
  capacity : jsnum;
  price : jsnum;
  amenities : option string;
  status : option string;
  created_at : string }.
End rooms.

(** The two tables, keyed by rowid ([id INTEGER PRIMARY KEY]), each with its
    [sqlite_sequence] entry for AUTOINCREMENT. *)
Record database := Database {
  submissions_table : gmap Z submissions.row;
  submissions_seq : Z;
  rooms_table : gmap Z rooms.row;
  rooms_seq : Z }.

Inductive sqlite_error :=
| NotNull (column : string)
| Unique (column : string).

Definition message (e : sqlite_error) : string :=
  match e with
  | NotNull c => "SQLITE_CONSTRAINT: NOT NULL constraint failed: " +:+ c
  | Unique c => "SQLITE_CONSTRAINT: UNIQUE constraint failed: " +:+ c
  end.

(** What a statement hands to its callback: [err], or the result. *)
Inductive result (A : Type) :=
| Ok (a : A)
| Err (e : sqlite_error).
Arguments Ok {A} a.
Arguments Err {A} e.

#[global] Instance result_ret : MRet result := fun _ a => Ok a.
#[global] Instance result_bind : MBind result :=
  fun _ _ k r => match r with Ok a => k a | Err e => Err e end.

Definition not_null {A} (column : string) (x : option A) : result A :=
  match x with
  | Some a => Ok a
  | None => Err (NotNull column)
  end.

(** A bound parameter: [undefined] and [null] are both stored as NULL. *)
Definition bind {A} (x : field A) : option A :=
  match x with
  | Val a => Some a
  | _ => None
  end.

Definition max_rowid {A} (t : gmap Z A) : Z :=
  foldr Z.max 0 (fst <$> map_to_list t).

(** AUTOINCREMENT: one more than the largest rowid the table has ever held. *)
Definition next_rowid {A} (t : gmap Z A) (seq : Z) : Z :=
  Z.max (max_rowid t) seq + 1.

(** INSERT INTO submissions (student_name, work_type, content) VALUES (?, ?, ?)
    ; the result is the new store and [this.lastID]. *)
Definition insert_submission (now : string) (db : database)
    (student_name work_type content : option string) : result (database * Z) :=
  n ← not_null "submissions.student_name" student_name;
  w ← not_null "submissions.work_type" work_type;
  c ← not_null "submissions.content" content;
  let id := next_rowid (submissions_table db) (submissions_seq db) in
  Ok ({| submissions_table :=
           <[id := submissions.Row n w c now]> (submissions_table db);
         submissions_seq := id;
         rooms_table := rooms_table db;
         rooms_seq := rooms_seq db |}, id).

(** ORDER BY created_at DESC, on (rowid, row) pairs. *)
Definition newest_first (a b : Z * submissions.row) : Prop :=
  String.le (submissions.created_at b.2) (submissions.created_at a.2).

(** SELECT * FROM submissions ORDER BY created_at DESC.  SQL leaves open the
    order of rows with the same created_at; here it is the one the merge
    sort gives, and no property below depends on it. *)
Definition select_submissions (db : database) : result (list (Z * submissions.row)) :=
  Ok (merge_sort newest_first (map_to_list (submissions_table db))).

(** SELECT * FROM submissions WHERE id = ? *)
Definition select_submission (db : database) (id : Z) : result (option submissions.row) :=
  Ok (submissions_table db !! id).

Definition number_taken (t : gmap Z rooms.row) (n : string) : Prop :=
  map_Exists (λ _ r, rooms.number r = n) t.

(** INSERT INTO rooms (number, type, capacity, price, amenities, status)
    VALUES (?, ?, ?, ?, ?, ?) *)
Definition insert_room (now : string) (db : database)
    (number type : option string) (capacity price : option jsnum)
    (amenities status : option string) : result (database * Z) :=
  n ← not_null "rooms.number" number;
  t ← not_null "rooms.type" type;
  c ← not_null "rooms.capacity" capacity;
  p ← not_null "rooms.price" price;
  if decide (number_taken (rooms_table db) n) then Err (Unique "rooms.number")
  else
    let id := next_rowid (rooms_table db) (rooms_seq db) in
    Ok ({| submissions_table := submissions_table db;
           submissions_seq := submissions_seq db;
           rooms_table :=
             <[id := rooms.Row n t c p amenities status now]> (rooms_table db);
           rooms_seq := id |}, id).

(** ORDER BY number ASC: TEXT compares byte by byte. *)
Definition by_number (a b : Z * rooms.row) : Prop :=
  String.le (rooms.number a.2) (rooms.number b.2).

(** SELECT * FROM rooms ORDER BY number ASC *)
Definition select_rooms (db : database) : result (list (Z * rooms.row)) :=
  Ok (merge_sort by_number (map_to_list (rooms_table db))).

Section where_id.
(** [WHERE id = ?] with the text of [req.params.id] bound: SQLite compares
    the text with the integer key under numeric affinity, so the text
    designates at most one rowid.  The conversion is a parameter. *)
Context (rowid_of_text : string → option Z).

Definition where_id {A} (t : gmap Z A) (param : string) : option Z :=
  i ← rowid_of_text param;
  _ ← t !! i;
  Some i.

(** UPDATE rooms SET number = ?, type = ?, capacity = ?, price = ?,
    amenities = ?, status = ? WHERE id = ? ; the result is the new store
    and [this.changes]. *)
Definition update_room (db : database)
    (number type : option string) (capacity price : option jsnum)
    (amenities status : option string) (param : string) : result (database * nat) :=
  match where_id (rooms_table db) param with
  | None => Ok (db, 0%nat)
  | Some i =>
      n ← not_null "rooms.number" number;
      t ← not_null "rooms.type" type;
      c ← not_null "rooms.capacity" capacity;
      p ← not_null "rooms.price" price;
      if decide (number_taken (delete i (rooms_table db)) n)
      then Err (Unique "rooms.number")
      else
        Ok ({| submissions_table := submissions_table db;
               submissions_seq := submissions_seq db;
               rooms_table :=
                 alter (λ r, rooms.Row n t c p amenities status (rooms.created_at r))
                   i (rooms_table db);
               rooms_seq := rooms_seq db |}, 1%nat)
  end.

(** DELETE FROM rooms WHERE id = ? *)
Definition delete_room (db : database) (param : string) : result (database * nat) :=
  match where_id (rooms_table db) param with
  | None => Ok (db, 0%nat)
  | Some i =>
      Ok ({| submissions_table := submissions_table db;
             submissions_seq := submissions_seq db;
             rooms_table := delete i (rooms_table db);
             rooms_seq := rooms_seq db |}, 1%nat)
  end.
End where_id.

(** ** Requests and responses *)

Record submission_body := SubmissionBody {
  studentName : field string;
  workType : field string;
  content : field string }.

Record room_body := RoomBody {
  number : field string;
  type : field string;
  capacity : field jsnum;
  price : field jsnum;
  amenities : field (list string);
  status : field string }.

(** What a request observes: [res.status(s).json(body)] ([res.json] alone
    is status 200), or an exception thrown in the database callback, in
    which case no response is sent. *)
Inductive outcome :=
| Respond (status : Z) (body : jsval)
| Throws.

(** The clocks a request reads: SQLite's CURRENT_TIMESTAMP, the text of
    [new Date().toISOString()], and [process.uptime()]. *)
Record clock := Clock {
  CURRENT_TIMESTAMP : string;
  toISOString : string;
  uptime : jsnum }.

(** A request value as a response member. *)
Definition text (x : field string) : jsval :=
  match x with
  | Undefined => JUndefined
  | Null => JNull
  | Val s => JStr s
  end.

Definition numeric (x : field jsnum) : jsval :=
  match x with
  | Undefined => JUndefined
  | Null => JNull
  | Val n => JNum n
  end.

(** A nullable TEXT column as read back. *)
Definition column (x : option string) : jsval :=
  match x with
  | Some s => JStr s
  | None => JNull
  end.

Definition failure (error : string) : jsval :=
  JObj [("success", JBool false); ("error", JStr error)].

Definition validWorkTypes : list string :=
  ["room_request"; "report"; "financial_report"].

(** [sampleRooms] *)
Definition sampleRooms : list (string * string * Z * Z * list string * string) :=
  [ ("101", "Standard", 2, 2500, ["WiFi"; "AC"; "TV"], "available");
    ("102", "Standard", 2, 2500, ["WiFi"; "AC"; "TV"], "occupied");
    ("201", "Deluxe", 3, 3500, ["WiFi"; "AC"; "TV"; "Mini Bar"], "available");
    ("202", "Deluxe", 3, 3500, ["WiFi"; "AC"; "TV"; "Mini Bar"], "maintenance");
    ("301", "Suite", 4, 5000, ["WiFi"; "AC"; "TV"; "Mini Bar"; "Balcony"], "available") ].

Definition empty_database : database :=
  {| submissions_table := ∅; submissions_seq := 0;
     rooms_table := ∅; rooms_seq := 0 |}.

(** [db.serialize]: both tables are created and the sample rooms inserted;
    the inserts have no callback, a failure would go unnoticed. *)
Definition seed (now : string) (db : database)
    (room : string * string * Z * Z * list string * string) : database :=
  let '(number, type, capacity, price, amenities, status) := room in
  match insert_room now db (Some number) (Some type)
          (Some (num_of_Z capacity)) (Some (num_of_Z price))
          (Some (JSON_stringify amenities)) (Some status) with
  | Ok (db', _) => db'
  | Err _ => db
  end.

Definition initial_database (now : string) : database :=
  foldl (seed now) empty_database sampleRooms.

(** [JSON.stringify(amenities || [])], the text kept in the amenities
    column. *)
Definition stored_amenities (amenities : field (list string)) : string :=
  JSON_stringify (or_default amenities []).

(** [JSON.parse(row.amenities || '[]')]: NULL and the empty text read as the
    empty array. *)
Definition read_amenities (column : option string) : option jsval :=
  JSON_parse
    (match column with
     | Some s => if truthy s then s else "[]"
     | None => "[]"
     end).

(** ** The handlers (third variant: submissions and rooms) *)

(** The row of [GET /api/submissions] in the shape the front end reads. *)
Definition submission_view (r : Z * submissions.row) : option jsval :=
  let '(id, row) := r in
  parsed ← JSON_parse (submissions.content row);
  title ← get parsed "title";
  description ← get parsed "description";
  data ← get parsed "data";
  studentId ← get parsed "studentId";
  studentEmail ← get parsed "studentEmail";
  Some (JObj
    [ ("id", JNum (num_of_Z id));
      ("studentName", JStr (submissions.student_name row));
      ("type", JStr (submissions.work_type row));
      ("title", or_value title (JStr "Untitled"));
      ("description", or_value description (JStr EmptyString));
      ("data", or_value data (JObj []));
      ("submittedAt", JStr (submissions.created_at row));
      ("studentId", studentId);
      ("studentEmail", studentEmail) ]).

(** GET /api/submissions *)
Definition get_submissions (db : database) : database * outcome :=
  match select_submissions db with
  | Err err => (db, Respond 500 (failure (message err)))
  | Ok rows =>
      match mapM submission_view rows with
      | None => (db, Throws)
      | Some submissions => (db, Respond 200 (JArr submissions))
      end
  end.

(** createSubmission: the INSERT and its callback, which the handler reaches
    once the body has passed validation. *)
Definition createSubmission (clk : clock) (db : database)
    (studentName workType content : field string) : database * outcome :=
  match insert_submission (CURRENT_TIMESTAMP clk) db
          (bind studentName) (bind workType) (bind content) with
  | Err err => (db, Respond 500 (failure ("Database error: " +:+ message err)))
  | Ok (db', lastID) =>
      match JSON_parse (interpolate content) with
      | None => (db', Throws)
      | Some parsed =>
          let newSubmission :=
            JObj [ ("id", JNum (num_of_Z lastID));
                   ("studentName", text studentName);
                   ("workType", text workType);
                   ("content", parsed);
                   ("submittedAt", JStr (toISOString clk)) ] in
          (db', Respond 200
                  (JObj [ ("success", JBool true);
                          ("data", newSubmission);
                          ("message", JStr "Submission saved successfully") ]))
      end
  end.

(** POST /api/submissions *)
Definition post_submissions (clk : clock) (db : database) (body : submission_body)
    : database * outcome :=
  let '(SubmissionBody studentName workType content) := body in
  if negb (truthy studentName) || negb (truthy workType) || negb (truthy content) then
    (db, Respond 400
           (failure "Missing required fields: studentName, workType, content"))
  else if negb (includes validWorkTypes workType) then
    (db, Respond 400
           (failure ("Invalid work type: " +:+ interpolate workType +:+
                     ". Valid types: " +:+ join ", " validWorkTypes)))
  else createSubmission clk db studentName workType content.

(** The row of [GET /api/rooms] in the shape the front end reads. *)
Definition room_view (r : Z * rooms.row) : option jsval :=
  let '(id, row) := r in
  amenities ← read_amenities (rooms.amenities row);
  Some (JObj
    [ ("id", JNum (num_of_Z id));
      ("number", JStr (rooms.number row));
      ("type", JStr (rooms.type row));
      ("capacity", JNum (rooms.capacity row));
      ("price", JNum (rooms.price row));
      ("amenities", amenities);
      ("status", column (rooms.status row));
      ("createdAt", JStr (rooms.created_at row)) ]).

(** GET /api/rooms *)
Definition get_rooms (db : database) : database * outcome :=
  match select_rooms db with
  | Err err => (db, Respond 500 (failure (message err)))
  | Ok rows =>
      match mapM room_view rows with
      | None => (db, Throws)
      | Some rooms => (db, Respond 200 (JArr rooms))
      end
  end.

(** createRoom: the INSERT and its callback, which the handler reaches once
    the body has passed validation. *)
Definition createRoom (clk : clock) (db : database)
    (number type : field string) (capacity price : field jsnum)
    (amenities : field (list string)) (status : field string) : database * outcome :=
  match insert_room (CURRENT_TIMESTAMP clk) db
          (bind number) (bind type) (bind capacity) (bind price)
          (Some (stored_amenities amenities))
          (Some (or_default status "available")) with
  | Err err => (db, Respond 500 (failure ("Database error: " +:+ message err)))
  | Ok (db', lastID) =>
      let newRoom :=
        JObj [ ("id", JNum (num_of_Z lastID));
               ("number", text number);
               ("type", text type);
               ("capacity", numeric capacity);
               ("price", numeric price);
               ("amenities", JArr (JStr <$> or_default amenities []));
               ("status", JStr (or_default status "available"));
               ("createdAt", JStr (toISOString clk)) ] in
      (db', Respond 200
              (JObj [ ("success", JBool true);
                      ("data", newRoom);
                      ("message", JStr "Room created successfully") ]))
  end.

(** POST /api/rooms *)
Definition post_rooms (clk : clock) (db : database) (body : room_body)
    : database * outcome :=
  let '(RoomBody number type capacity price amenities status) := body in
  if negb (truthy number) || negb (truthy type)
     || negb (truthy capacity) || negb (truthy price) then
    (db, Respond 400
           (failure "Missing required fields: number, type, capacity, price"))
  else createRoom clk db number type capacity price amenities status.

Section routes.
Context (rowid_of_text : string → option Z).

(** PUT /api/rooms/:id *)
Definition put_room (db : database) (roomId : string) (body : room_body)
    : database * outcome :=
  let '(RoomBody number type capacity price amenities status) := body in
  match update_room rowid_of_text db
          (bind number) (bind type) (bind capacity) (bind price)
          (Some (stored_amenities amenities))
          (bind status) roomId with
  | Err err => (db, Respond 500 (failure ("Database error: " +:+ message err)))
  | Ok (db', changes) =>
      if decide (changes = 0%nat) then (db', Respond 404 (failure "Room not found"))
      else
        (db', Respond 200
                (JObj [ ("success", JBool true);
                        ("message", JStr "Room updated successfully") ]))
  end.

(** DELETE /api/rooms/:id *)
Definition delete_room_by_id (db : database) (roomId : string) : database * outcome :=
  match delete_room rowid_of_text db roomId with
  | Err err => (db, Respond 500 (failure ("Database error: " +:+ message err)))
  | Ok (db', changes) =>
      if decide (changes = 0%nat) then (db', Respond 404 (failure "Room not found"))
      else
        (db', Respond 200
                (JObj [ ("success", JBool true);
                        ("message", JStr "Room deleted successfully") ]))
  end.

(** GET / *)
Definition get_root (db : database) : database * outcome :=
  (db, Respond 200
         (JObj [ ("message", JStr "Hotel Submission Backend API");
                 ("status", JStr "Running");
                 ("version", JStr "1.0.0");
                 ("endpoints",
                  JObj [ ("health", JStr "/health");
                         ("submissions", JStr "/api/submissions");
                         ("rooms", JStr "/api/rooms") ]) ])).

(** GET /health *)
Definition get_health (clk : clock) (db : database) : database * outcome :=
  (db, Respond 200
         (JObj [ ("status", JStr "OK");
                 ("timestamp", JStr (toISOString clk));
                 ("uptime", JNum (uptime clk)) ])).

(** The 404 handler. *)
Definition not_found (db : database) : database * outcome :=
  (db, Respond 404 (failure "Endpoint not found")).

(** The error-handling middleware, which [express.json()] calls when the
    request body is not JSON text. *)
Definition error_handler (db : database) : database * outcome :=
  (db, Respond 500 (failure "Internal server error")).

Inductive request :=
| GET_root
| GET_health
| GET_submissions
| POST_submissions (body : submission_body)
| GET_rooms
| POST_rooms (body : room_body)
| PUT_room (id : string) (body : room_body)
| DELETE_room (id : string)
| Unrouted
| Malformed.

(** The router. *)
Definition handle (clk : clock) (db : database) (req : request) : database * outcome :=
  match req with
  | GET_root => get_root db
  | GET_health => get_health clk db
  | GET_submissions => get_submissions db
  | POST_submissions body => post_submissions clk db body
  | GET_rooms => get_rooms db
  | POST_rooms body => post_rooms clk db body
  | PUT_room id body => put_room db id body
  | DELETE_room id => delete_room_by_id db id
  | Unrouted => not_found db
  | Malformed => error_handler db
  end.

(** The stores the service can be in: the seeded store, and whatever a
    request leaves behind. *)
Inductive reachable : database → Prop :=
| reachable_initial now : reachable (initial_database now)
| reachable_step clk db req :
    reachable db → reachable (handle clk db req).1.
End routes.


(** ** The first variant ("comprehensive error handling")

    Same tables and seed; submissions are listed and created, rooms are
    listed.  The second variant of the file has the submission handlers of
    the third one and no rooms. *)
Module V1.

(** A row as [db.all] and [db.get] return it. *)
Definition submission_record (r : Z * submissions.row) : jsval :=
  let '(id, row) := r in
  JObj [ ("id", JNum (num_of_Z id));
         ("student_name", JStr (submissions.student_name row));
         ("work_type", JStr (submissions.work_type row));
         ("content", JStr (submissions.content row));
         ("created_at", JStr (submissions.created_at row)) ].

(** GET /api/submissions *)
Definition get_submissions (db : database) : database * outcome :=
  match select_submissions db with
  | Err err => (db, Respond 500 (failure ("Database error: " +:+ message err)))
  | Ok rows =>
      (db, Respond 200
             (JObj [ ("success", JBool true);
                     ("data", JArr (submission_record <$> rows));
                     ("count", JNum (num_of_nat (length rows))) ]))
  end.

(** createSubmission: the INSERT, then the saved row is read back and
    returned. *)
Definition createSubmission (clk : clock) (db : database)
    (studentName workType content : field string) : database * outcome :=
  match insert_submission (CURRENT_TIMESTAMP clk) db
          (bind studentName) (bind workType) (bind content) with
  | Err err =>
      (db, Respond 500
             (JObj [ ("success", JBool false);
                     ("error", JStr ("Database error: " +:+ message err));
                     ("code", JStr "SQLITE_CONSTRAINT") ]))
  | Ok (db', lastID) =>
      match select_submission db' lastID with
      | Err err =>
          (db', Respond 500
                  (failure ("Error retrieving saved submission: " +:+ message err)))
      | Ok row =>
          (db', Respond 201
                  (JObj [ ("success", JBool true);
                          ("data",
                           match row with
                           | Some r => submission_record (lastID, r)
                           | None => JUndefined
                           end) ]))
      end
  end.

(** POST /api/submissions.  The [try] block guards the synchronous part,
    where nothing throws on a body of this shape. *)
Definition post_submissions (clk : clock) (db : database) (body : submission_body)
    : database * outcome :=
  let '(SubmissionBody studentName workType content) := body in
  if negb (truthy studentName) || negb (truthy workType) || negb (truthy content) then
    (db, Respond 400
           (JObj [ ("success", JBool false);
                   ("error", JStr "Missing required fields: studentName, workType, content");
                   ("received",
                    JObj [ ("studentName", bang_bang studentName);
                           ("workType", bang_bang workType);
                           ("content", bang_bang content) ]) ]))
  else if negb (includes validWorkTypes workType) then
    (db, Respond 400
           (failure ("Invalid work type: " +:+ interpolate workType +:+
                     ". Valid types: " +:+ join ", " validWorkTypes)))
  else createSubmission clk db studentName workType content.

(** [{...room, amenities: JSON.parse(room.amenities || '[]')}] *)
Definition room_record (r : Z * rooms.row) : option jsval :=
  let '(id, row) := r in
  amenities ← read_amenities (rooms.amenities row);
  Some (JObj
    [ ("id", JNum (num_of_Z id));
      ("number", JStr (rooms.number row));
      ("type", JStr (rooms.type row));
      ("capacity", JNum (rooms.capacity row));
      ("price", JNum (rooms.price row));
      ("amenities", amenities);
      ("status", column (rooms.status row));
      ("created_at", JStr (rooms.created_at row)) ]).

(** GET /api/rooms *)
Definition get_rooms (db : database) : database * outcome :=
  match select_rooms db with
  | Err err => (db, Respond 500 (failure ("Database error: " +:+ message err)))
  | Ok rows =>
      match mapM room_record rows with
      | None => (db, Throws)
      | Some roomsWithParsedAmenities =>
          (db, Respond 200
                 (JObj [ ("success", JBool true);
                         ("data", JArr roomsWithParsedAmenities);
                         ("count", JNum (num_of_nat (length rows))) ]))
      end
  end.

(** GET / *)
Definition get_root (clk : clock) (db : database) : database * outcome :=
  (db, Respond 200
         (JObj [ ("message", JStr "Hotel Management Backend API is running!");
                 ("timestamp", JStr (toISOString clk));
                 ("endpoints",
                  JObj [ ("submissions", JStr "/api/submissions");
                         ("rooms", JStr "/api/rooms") ]) ])).

End V1.

(** ** Properties of responses *)

(** The envelope: an object with a boolean [success] member. *)
Definition has_success (body : jsval) : bool :=
  match body with
  | JObj kvs => match member "success" kvs with
                | Some (JBool _) => true
                | _ => false
                end
  | _ => false
  end.

Definition has_error_text (body : jsval) : bool :=
  match body with
  | JObj kvs => match member "error" kvs with
                | Some (JStr _) => true
                | _ => false
                end
  | _ => false
  end.

(** An error response: a status of 400 or more. *)
Definition is_error (o : outcome) : bool :=
  match o with
  | Respond status _ => bool_decide (400 ≤ status)
  | Throws => false
  end.

(** ** Invariants of the rooms table *)

(** [number TEXT NOT NULL UNIQUE] *)
Definition numbers_unique (t : gmap Z rooms.row) : Prop :=
  ∀ i j r1 r2,
    t !! i = Some r1 → t !! j = Some r2 → rooms.number r1 = rooms.number r2 → i = j.

(** Every amenities column holds the JSON text of an array of strings. *)
Definition encoded (r : rooms.row) : Prop :=
  ∃ labels, rooms.amenities r = Some (JSON_stringify labels).

Definition amenities_encoded (t : gmap Z rooms.row) : Prop :=
  map_Forall (λ _ r, encoded r) t.

(** The ways a statement of the service changes the rooms table. *)
Inductive rooms_change (t : gmap Z rooms.row) : gmap Z rooms.row → Prop :=
| rooms_same : rooms_change t t
| rooms_inserted id row :
    t !! id = None → ¬ number_taken t (rooms.number row) → encoded row →
    rooms_change t (<[id := row]> t)
| rooms_updated id row :
    is_Some (t !! id) → ¬ number_taken (delete id t) (rooms.number row) → encoded row →
    rooms_change t (<[id := row]> t)
| rooms_deleted id : rooms_change t (delete id t).

(** ** Sample inputs *)

Definition noon : clock :=
  {| CURRENT_TIMESTAMP := "2024-01-01 12:00:00";
     toISOString := "2024-01-01T12:00:00.250Z";
     uptime := num_of_Z 42 |}.

(** The conversion of a route parameter used in the examples: a string of
    decimal digits is the integer it spells. *)
Fixpoint digits_value (acc : Z) (s : string) : option Z :=
  match s with
  | EmptyString => Some acc
  | String c rest =>
      match digit_of c with
      | Some d => digits_value (acc * 10 + Z.of_N d) rest
      | None => None
      end
  end.

Definition decimal (s : string) : option Z :=
  match s with
  | EmptyString => None
  | _ => digits_value 0 s
  end.

(** The text [{"title":"Need AC"}]. *)
Definition need_ac : string :=
  "{" +:+ quote "title" +:+ ":" +:+ quote "Need AC" +:+ "}".

Definition jane_room_request : submission_body :=
  {| studentName := Val "Jane"; workType := Val "room_request"; content := Val need_ac |}.

(** Non-empty content that is not JSON text. *)
Definition jane_plain_report : submission_body :=
  {| studentName := Val "Jane"; workType := Val "report"; content := Val "hello" |}.

(** A work type outside the enumeration, and no student name. *)
Definition anonymous_bogus : submission_body :=
  {| studentName := Undefined; workType := Val "bogus"; content := Val need_ac |}.

(** An empty work type, everything else in order. *)
Definition jane_untyped : submission_body :=
  {| studentName := Val "Jane"; workType := Val EmptyString; content := Val need_ac |}.

Definition jane_bogus : submission_body :=
  {| studentName := Val "Jane"; workType := Val "bogus"; content := Val need_ac |}.

(** Only the content is absent. *)
Definition jane_without_content : submission_body :=
  {| studentName := Val "Jane"; workType := Val "report"; content := Undefined |}.

(** Everything is absent. *)
Definition empty_submission : submission_body :=
  {| studentName := Undefined; workType := Undefined; content := Undefined |}.

(** A second room 101. *)
Definition another_101 : room_body :=
  {| number := Val "101"; type := Val "Suite";
     capacity := Val (num_of_Z 4); price := Val (num_of_Z 5000);
     amenities := Val ["WiFi"]; status := Undefined |}.

(** ** Runs of the service *)

(** Requests are handled one at a time, each to completion; a run is the
    store after a sequence of requests, each with the clocks it reads. *)
Fixpoint serve (rowid_of_text : string → option Z) (db : database)
    (requests : list (clock * request)) : database :=
  match requests with
  | [] => db
  | (clk, req) :: rest =>
      serve rowid_of_text (handle rowid_of_text clk db req).1 rest
  end.

(** The contents that [GET /api/submissions] can show: JSON text of a value
    whose members can be read, that is, of any value but null. *)
Definition listable (content : string) : bool :=
  match JSON_parse content with
  | Some JUndefined | Some JNull | None => false
  | Some _ => true
  end.

(** The required fields of a room as [POST /api/rooms] tests them. *)
Definition room_fields_present (body : room_body) : bool :=
  truthy (number body) && truthy (type body)
  && truthy (capacity body) && truthy (price body).

(** ** Further predicates and sample inputs *)

(** A field that is bound as NULL: absent or null. *)
Definition unbound {A} (x : field A) : bool :=
  match x with
  | Val _ => false
  | _ => true
  end.

(** A JSON value that is neither null nor an object. *)
Definition plain_value (v : jsval) : bool :=
  match v with
  | JBool _ | JNum _ | JStr _ | JArr _ => true
  | _ => false
  end.

(** The seeded store of the examples. *)
Definition opening : database := initial_database "2024-01-01 09:00:00".

(** A room with a number that the seed does not use. *)
Definition suite_401 : room_body :=
  {| number := Val "401"; type := Val "Suite";
     capacity := Val (num_of_Z 4); price := Val (num_of_Z 5000);
     amenities := Val ["WiFi"; "AC"]; status := Undefined |}.

(** A room update without a number. *)
Definition unnumbered_suite : room_body :=
  {| number := Undefined; type := Val "Suite";
     capacity := Val (num_of_Z 4); price := Val (num_of_Z 5000);
     amenities := Undefined; status := Undefined |}.

(** Room 201 of the seed, stored under id 3. *)
Definition room_201 : rooms.row :=
  rooms.Row "201" "Deluxe" (num_of_Z 3) (num_of_Z 3500)
    (Some (JSON_stringify ["WiFi"; "AC"; "TV"; "Mini Bar"]))
    (Some "available") "2024-01-01 09:00:00".

(** Room 101 of the seed, stored under id 1. *)
Definition room_101 : rooms.row :=
  rooms.Row "101" "Standard" (num_of_Z 2) (num_of_Z 2500)
    (Some (JSON_stringify ["WiFi"; "AC"; "TV"]))
    (Some "available") "2024-01-01 09:00:00".

(** A report whose content is the JSON text null. *)
Definition jane_null_report : submission_body :=
  {| studentName := Val "Jane"; workType := Val "report"; content := Val "null" |}.

(** * Verification *)

(** ** JSON text of an array of strings *)

Lemma app_assoc_string (a b c : string) : (a +:+ b) +:+ c = a +:+ (b +:+ c).
Proof.
  induction a as [|x a IH]; [done|].
  change (String x ((a +:+ b) +:+ c) = String x (a +:+ (b +:+ c))).
  by rewrite IH.
Qed.

Lemma app_cons_string x (a b : string) : String x a +:+ b = String x (a +:+ b).
Proof. done. Qed.

Lemma run_quote_char c goal acc stk rest :
  run (Str goal acc Plain stk) (quote_char c +:+ rest)
  = run (Str goal (acc ++ [code_of c]) Plain stk) rest.
Proof. destruct c as [[] [] [] [] [] [] [] []]; reflexivity. Qed.

Lemma decode_codes s : decode (codes s) = s.
Proof.
  induction s as [|c s IH]; [done|].
  destruct c as [[] [] [] [] [] [] [] []]; cbn; by rewrite IH.
Qed.

Lemma run_quote_chars s goal acc stk rest :
  run (Str goal acc Plain stk) (quote_chars s +:+ rest)
  = run (Str goal (acc ++ codes s) Plain stk) rest.
Proof.
  revert acc. induction s as [|c s IH]; intros acc.
  - cbn. by rewrite app_nil_r.
  - cbn [quote_chars codes]. rewrite app_assoc_string, run_quote_char, IH.
    by rewrite <- app_assoc.
Qed.

(** A quoted string is read back as the string. *)
Lemma run_quote s goal stk rest st :
  step st "034" = Some (Str goal [] Plain stk) →
  run st (quote s +:+ rest) = run (close_string goal s stk) rest.
Proof.
  intros Hst. unfold quote. rewrite app_cons_string. cbn [run].
  rewrite Hst, app_assoc_string, run_quote_chars, app_cons_string.
  cbn. by rewrite decode_codes.
Qed.

Lemma join_cons sep x y (l : list string) :
  join sep (x :: y :: l) = x +:+ sep +:+ join sep (y :: l).
Proof. done. Qed.

(** The elements of an array, once the bracket is open. *)
Lemma run_elements l x done stk rest st :
  step st "034" = Some (Str AsValue [] Plain (InArr done :: stk)) →
  run st (join "," (quote <$> x :: l) +:+ String "]" rest)
  = run (deliver (JArr (rev done ++ JStr x :: (JStr <$> l))) stk) rest.
Proof.
  revert x done st. induction l as [|y l IH]; intros x done st Hst.
  - cbn [fmap list_fmap join String.concat].
    rewrite (run_quote _ _ _ _ _ Hst). done.
  - rewrite fmap_cons, fmap_cons, join_cons, <- fmap_cons, !app_assoc_string.
    rewrite (run_quote _ _ _ _ _ Hst).
    rewrite app_cons_string. cbn [close_string deliver run step after_value is_ws].
    rewrite (IH y (JStr x :: done)); [|done].
    cbn [rev]. by rewrite <- app_assoc.
Qed.

Lemma JSON_parse_stringify (l : list string) :
  JSON_parse (JSON_stringify l) = Some (JArr (JStr <$> l)).
Proof.
  unfold JSON_parse, JSON_stringify. destruct l as [|x l]; [done|].
  change ("[" +:+ ?s) with (String "[" s). cbn [run step is_ws start_value].
  by rewrite (run_elements l x [] [] EmptyString (ArrOpen [])).
Qed.

Lemma JSON_stringify_truthy (l : list string) : truthy (JSON_stringify l) = true.
Proof. done. Qed.

(** C5: for every ordered sequence of amenity labels, the empty one
    included, the text written to the amenities column on room create and
    update, [JSON.stringify(amenities || [])], is read back on room read, by
    [JSON.parse(row.amenities || '[]')], as the array of the same labels in
    the same order. *)
Theorem amenities_round_trip (labels : list string) :
  read_amenities (Some (stored_amenities (Val labels))) = Some (JArr (JStr <$> labels)).
Proof.
  unfold read_amenities, stored_amenities, or_default.
  cbn [truthy truthy_array]. rewrite JSON_stringify_truthy.
  apply JSON_parse_stringify.
Qed.

(** ** Rowids *)

Lemma max_rowid_ge {A} (t : gmap Z A) k : is_Some (t !! k) → k ≤ max_rowid t.
Proof.
  intros [x Hx]. apply elem_of_map_to_list in Hx.
  unfold max_rowid. induction (map_to_list t) as [|[j y] l IH].
  - by apply elem_of_nil in Hx.
  - cbn. apply elem_of_cons in Hx as [[= -> ->]|Hx]; [lia|].
    specialize (IH Hx). lia.
Qed.

Lemma next_rowid_gt {A} (t : gmap Z A) seq k :
  is_Some (t !! k) → k < next_rowid t seq.
Proof. intros H%max_rowid_ge. unfold next_rowid. lia. Qed.

Lemma next_rowid_fresh {A} (t : gmap Z A) seq : t !! next_rowid t seq = None.
Proof.
  destruct (t !! next_rowid t seq) eqn:E; [|done].
  assert (next_rowid t seq < next_rowid t seq); [|lia].
  apply next_rowid_gt. by rewrite E.
Qed.

Lemma next_rowid_above_seq {A} (t : gmap Z A) seq : seq < next_rowid t seq.
Proof. unfold next_rowid. lia. Qed.

(** ** Submissions *)

Lemma includes_valid (w : string) :
  includes validWorkTypes (Val w) = true ↔ w ∈ validWorkTypes.
Proof. unfold includes. by rewrite bool_decide_eq_true. Qed.

Lemma valid_truthy (w : string) : w ∈ validWorkTypes → truthy w = true.
Proof.
  unfold validWorkTypes. rewrite !elem_of_cons, elem_of_nil.
  by intros [->|[->|[->|[]]]].
Qed.

Lemma nonempty_truthy (s : string) : s ≠ EmptyString → truthy s = true.
Proof. by destruct s. Qed.

(** [POST /api/submissions] on a valid body: one INSERT, then the response
    is built from the request, unless [JSON.parse(content)] throws. *)
Lemma post_submissions_valid clk db name wt c :
  name ≠ EmptyString → wt ∈ validWorkTypes → c ≠ EmptyString →
  let id := next_rowid (submissions_table db) (submissions_seq db) in
  post_submissions clk db (SubmissionBody (Val name) (Val wt) (Val c))
  = ({| submissions_table :=
          <[id := submissions.Row name wt c (CURRENT_TIMESTAMP clk)]> (submissions_table db);
        submissions_seq := id;
        rooms_table := rooms_table db;
        rooms_seq := rooms_seq db |},
     match JSON_parse c with
     | None => Throws
     | Some parsed =>
         Respond 200
           (JObj [ ("success", JBool true);
                   ("data", JObj [ ("id", JNum (num_of_Z id));
                                   ("studentName", JStr name);
                                   ("workType", JStr wt);
                                   ("content", parsed);
                                   ("submittedAt", JStr (toISOString clk)) ]);
                   ("message", JStr "Submission saved successfully") ])
     end).
Proof.
  intros Hn Hw Hc. unfold post_submissions.
  cbn [truthy truthy_field].
  rewrite (nonempty_truthy _ Hn), (nonempty_truthy _ Hc), (valid_truthy _ Hw).
  cbn [negb orb]. apply includes_valid in Hw as ->. cbn [negb].
  unfold createSubmission. cbn. by destruct (JSON_parse c).
Qed.





(** C10: when studentName is present and non-empty, workType is legal and
    content is a non-empty string that is not valid JSON, the row is
    inserted all the same, and the handler then throws while it builds the
    response: the request gets no response, and the store holds one
    submission more than before. *)
Theorem insert_survives_unparsable_content clk db name wt c :
  name ≠ EmptyString → wt ∈ validWorkTypes → c ≠ EmptyString →
  JSON_parse c = None →
  ∃ db' id,
    post_submissions clk db (SubmissionBody (Val name) (Val wt) (Val c)) = (db', Throws) ∧
    submissions_table db !! id = None ∧
    submissions_table db'
    = <[id := submissions.Row name wt c (CURRENT_TIMESTAMP clk)]> (submissions_table db) ∧
    size (submissions_table db') = S (size (submissions_table db)).
Proof.
  intros Hn Hw Hc Hparse.
  rewrite (post_submissions_valid _ _ _ _ _ Hn Hw Hc), Hparse.
  eexists _, _. split; [done|]. cbn.
  split; [apply next_rowid_fresh|]. split; [done|].
  apply map_size_insert_None, next_rowid_fresh.
Qed.

Lemma insert_survives_unparsable_content_witness :
  "Jane" ≠ EmptyString ∧ "report" ∈ validWorkTypes ∧ "hello" ≠ EmptyString ∧
  JSON_parse "hello" = None ∧
  ∃ db' id,
    post_submissions noon (initial_database "2024-01-01 09:00:00") jane_plain_report
    = (db', Throws) ∧
    submissions_table (initial_database "2024-01-01 09:00:00") !! id = None ∧
    submissions_table db'
    = <[id := submissions.Row "Jane" "report" "hello" (CURRENT_TIMESTAMP noon)]>
        (submissions_table (initial_database "2024-01-01 09:00:00")) ∧
    size (submissions_table db')
    = S (size (submissions_table (initial_database "2024-01-01 09:00:00"))).
Proof.
  split; [done|]. split; [by apply (bool_decide_unpack _)|]. split; [done|].
  split; [done|].
  apply (insert_survives_unparsable_content noon
           (initial_database "2024-01-01 09:00:00") "Jane" "report" "hello");
    [done | by apply (bool_decide_unpack _) | done | done].
Defined.

(** ** Validation of a submission *)

(** A body with a missing, empty or null field gets the fixed message,
    whichever field it is. *)
Lemma missing_field_message clk db body :
  truthy (studentName body) && truthy (workType body) && truthy (content body) = false →
  post_submissions clk db body
  = (db, Respond 400
           (failure "Missing required fields: studentName, workType, content")).
Proof.
  destruct body as [n w c]. cbn [studentName workType content]. intros H.
  unfold post_submissions.
  by destruct (truthy n), (truthy w), (truthy c).
Qed.

Lemma invalid_work_type_message clk db body :
  truthy (studentName body) && truthy (workType body) && truthy (content body) = true →
  includes validWorkTypes (workType body) = false →
  post_submissions clk db body
  = (db, Respond 400
           (failure ("Invalid work type: " +:+ interpolate (workType body) +:+
                     ". Valid types: room_request, report, financial_report"))).
Proof.
  destruct body as [n w c]. cbn [studentName workType content]. intros H Hw.
  unfold post_submissions. rewrite Hw.
  by destruct (truthy n), (truthy w), (truthy c).
Qed.

(** C4, as stated, fails: a body whose workType is outside the enumeration
    and whose studentName is absent is rejected for the missing field, with
    a message that lists no work type; so is a body whose workType is the
    empty text, the other two fields being in order. *)
Lemma invalid_work_type_counterexample :
  includes validWorkTypes (workType anonymous_bogus) = false ∧
  post_submissions noon empty_database anonymous_bogus
  = (empty_database,
     Respond 400 (failure "Missing required fields: studentName, workType, content")) ∧
  post_submissions noon empty_database anonymous_bogus
  ≠ (empty_database,
     Respond 400
       (failure "Invalid work type: bogus. Valid types: room_request, report, financial_report")) ∧
  includes validWorkTypes (workType jane_untyped) = false ∧
  post_submissions noon empty_database jane_untyped
  = (empty_database,
     Respond 400 (failure "Missing required fields: studentName, workType, content")) ∧
  post_submissions noon empty_database jane_untyped
  ≠ (empty_database,
     Respond 400
       (failure "Invalid work type: . Valid types: room_request, report, financial_report")).
Proof.
  split; [done|]. split; [done|]. split; [intros [=]|].
  split; [done|]. split; [done|]. intros [=].
Qed.

(** C4, amended: for every submission-creation input whose workType is not
    one of room_request, report, financial_report, the operation fails with
    HTTP 400 and the store is not written.  When studentName, workType and
    content are all present and non-empty, the condition is InvalidEnum: the
    message names the rejected value and enumerates exactly the three legal
    values.  When one of them is absent, empty or null, the condition is
    MissingField. *)
Theorem invalid_work_type_rejected clk db body :
  includes validWorkTypes (workType body) = false →
  ∃ error,
    post_submissions clk db body = (db, Respond 400 (failure error)) ∧
    error =
      if truthy (studentName body) && truthy (workType body) && truthy (content body)
      then "Invalid work type: " +:+ interpolate (workType body) +:+
           ". Valid types: room_request, report, financial_report"
      else "Missing required fields: studentName, workType, content".
Proof.
  intros Hw.
  destruct (truthy (studentName body) && truthy (workType body)
            && truthy (content body)) eqn:E.
  - eexists. split; [|done]. by apply invalid_work_type_message.
  - eexists. split; [|done]. by apply missing_field_message.
Qed.

Lemma invalid_work_type_rejected_witness :
  includes validWorkTypes (workType jane_bogus) = false ∧
  ∃ error,
    post_submissions noon (initial_database "2024-01-01 09:00:00") jane_bogus
    = (initial_database "2024-01-01 09:00:00", Respond 400 (failure error)) ∧
    error =
      if truthy (studentName jane_bogus) && truthy (workType jane_bogus)
         && truthy (content jane_bogus)
      then "Invalid work type: " +:+ interpolate (workType jane_bogus) +:+
           ". Valid types: room_request, report, financial_report"
      else "Missing required fields: studentName, workType, content".
Proof.
  split; [done|].
  apply (invalid_work_type_rejected noon (initial_database "2024-01-01 09:00:00")
           jane_bogus).
  done.
Defined.

(** The first variant adds, for each field, whether it was received. *)
Lemma missing_field_breakdown_v1 clk db body :
  truthy (studentName body) && truthy (workType body) && truthy (content body) = false →
  V1.post_submissions clk db body
  = (db, Respond 400
           (JObj [ ("success", JBool false);
                   ("error", JStr "Missing required fields: studentName, workType, content");
                   ("received",
                    JObj [ ("studentName", JBool (truthy (studentName body)));
                           ("workType", JBool (truthy (workType body)));
                           ("content", JBool (truthy (content body))) ]) ])).
Proof.
  destruct body as [n w c]. cbn [studentName workType content]. intros H.
  unfold V1.post_submissions, bang_bang.
  by destruct (truthy n), (truthy w), (truthy c).
Qed.

(** C8, on the code: with only the content absent, and with all three
    fields absent, the third variant answers with one and the same body,
    which names all three fields; the first variant tells them apart. *)
Theorem missing_field_detail_is_fixed :
  post_submissions noon empty_database jane_without_content
  = (empty_database,
     Respond 400 (failure "Missing required fields: studentName, workType, content")) ∧
  post_submissions noon empty_database empty_submission
  = post_submissions noon empty_database jane_without_content ∧
  V1.post_submissions noon empty_database jane_without_content
  = (empty_database,
     Respond 400
       (JObj [ ("success", JBool false);
               ("error", JStr "Missing required fields: studentName, workType, content");
               ("received",
                JObj [ ("studentName", JBool true);
                       ("workType", JBool true);
                       ("content", JBool false) ]) ])).
Proof. done. Qed.

(** ** What a created submission is answered with *)

(** The first variant reads the saved row back and returns it. *)
Lemma v1_returns_stored_row clk db name wt c :
  name ≠ EmptyString → wt ∈ validWorkTypes → c ≠ EmptyString →
  ∃ db' id row,
    V1.post_submissions clk db (SubmissionBody (Val name) (Val wt) (Val c))
    = (db', Respond 201
              (JObj [ ("success", JBool true);
                      ("data", V1.submission_record (id, row)) ])) ∧
    submissions_table db' !! id = Some row.
Proof.
  intros Hn Hw Hc. unfold V1.post_submissions.
  cbn [truthy truthy_field].
  rewrite (nonempty_truthy _ Hn), (nonempty_truthy _ Hc), (valid_truthy _ Hw).
  cbn [negb orb]. apply includes_valid in Hw as ->. cbn [negb].
  unfold V1.createSubmission.
  cbn [insert_submission bind not_null mbind result_bind select_submission
       submissions_table].
  rewrite lookup_insert_eq. eexists _, _, _. split; [done|].
  cbn. apply lookup_insert_eq.
Qed.

(** C7, on the code: Jane's room request on an empty store.  The third
    variant answers with an object put together from the request: the
    content is the parsed object, and submittedAt is the time of the
    JavaScript clock, not the created_at the store assigned to the row.
    The first variant answers with the row. *)
Theorem created_submission_is_rebuilt :
  (post_submissions noon empty_database jane_room_request).2
  = Respond 200
      (JObj [ ("success", JBool true);
              ("data",
               JObj [ ("id", JNum (num_of_Z 1));
                      ("studentName", JStr "Jane");
                      ("workType", JStr "room_request");
                      ("content", JObj [("title", JStr "Need AC")]);
                      ("submittedAt", JStr "2024-01-01T12:00:00.250Z") ]);
              ("message", JStr "Submission saved successfully") ]) ∧
  submissions_table (post_submissions noon empty_database jane_room_request).1 !! 1
  = Some (submissions.Row "Jane" "room_request" need_ac "2024-01-01 12:00:00") ∧
  (V1.post_submissions noon empty_database jane_room_request).2
  = Respond 201
      (JObj [ ("success", JBool true);
              ("data",
               JObj [ ("id", JNum (num_of_Z 1));
                      ("student_name", JStr "Jane");
                      ("work_type", JStr "room_request");
                      ("content", JStr need_ac);
                      ("created_at", JStr "2024-01-01 12:00:00") ]) ]).
Proof. by vm_compute. Qed.

(** ** Envelopes *)

(** The two listings answer with the array itself. *)
Lemma get_submissions_bare db :
  (get_submissions db).2 = Throws ∨
  ∃ items, (get_submissions db).2 = Respond 200 (JArr items).
Proof.
  unfold get_submissions, select_submissions.
  destruct (mapM _ _); [right; by eexists | by left].
Qed.

Lemma get_rooms_bare db :
  (get_rooms db).2 = Throws ∨
  ∃ items, (get_rooms db).2 = Respond 200 (JArr items).
Proof.
  unfold get_rooms, select_rooms.
  destruct (mapM _ _); [right; by eexists | by left].
Qed.

Lemma envelope_v1 db :
  ∃ body, (V1.get_submissions db).2 = Respond 200 body ∧ has_success body = true.
Proof. by eexists. Qed.

(** C9, as stated, fails: on the seeded store GET / answers with the
    endpoint map, which has no success member (so does the first variant),
    and GET /api/submissions answers with the bare array. *)
Lemma envelope_counterexample :
  (handle decimal noon (initial_database "2024-01-01 09:00:00") GET_root).2
  = Respond 200
      (JObj [ ("message", JStr "Hotel Submission Backend API");
              ("status", JStr "Running");
              ("version", JStr "1.0.0");
              ("endpoints",
               JObj [ ("health", JStr "/health");
                      ("submissions", JStr "/api/submissions");
                      ("rooms", JStr "/api/rooms") ]) ]) ∧
  has_success
    (JObj [ ("message", JStr "Hotel Submission Backend API");
            ("status", JStr "Running");
            ("version", JStr "1.0.0");
            ("endpoints",
             JObj [ ("health", JStr "/health");
                    ("submissions", JStr "/api/submissions");
                    ("rooms", JStr "/api/rooms") ]) ]) = false ∧
  (V1.get_root noon (initial_database "2024-01-01 09:00:00")).2
  = Respond 200
      (JObj [ ("message", JStr "Hotel Management Backend API is running!");
              ("timestamp", JStr "2024-01-01T12:00:00.250Z");
              ("endpoints",
               JObj [ ("submissions", JStr "/api/submissions");
                      ("rooms", JStr "/api/rooms") ]) ]) ∧
  (handle decimal noon (initial_database "2024-01-01 09:00:00") GET_submissions).2
  = Respond 200 (JArr []) ∧
  has_success (JArr []) = false.
Proof.
  split; [done|]. split; [done|]. split; [done|]. split; [by vm_compute|done].
Qed.

(** C9, amended: every response of POST /api/submissions, POST /api/rooms,
    PUT /api/rooms/:id, DELETE /api/rooms/:id, of the 404 handler and of the
    error handler is an envelope with a boolean success member; every error response (status
    400 or more) of any endpoint has, besides, a text error member; GET /
    and GET /health answer with informational payloads that have no success
    member. *)
Theorem envelope_of_data_endpoints rowid_of_text clk db req status body :
  (handle rowid_of_text clk db req).2 = Respond status body →
  (400 ≤ status → has_success body = true ∧ has_error_text body = true) ∧
  (req ≠ GET_root → req ≠ GET_health → req ≠ GET_submissions → req ≠ GET_rooms →
   has_success body = true) ∧
  (req = GET_root ∨ req = GET_health → has_success body = false).
Proof.
  destruct req as [| | |b| |b|i b|i| |]; cbn [handle].
  - intros [= <- <-]. split; [lia|]. split; [done|]. done.
  - intros [= <- <-]. split; [lia|]. split; [done|]. done.
  - unfold get_submissions, select_submissions. destruct (mapM _ _); [|done].
    intros [= <- <-]. split; [lia|]. split; [done|]. by intros [|].
  - destruct b as [n w c]. unfold post_submissions.
    assert (∀ e, has_success (failure e) = true ∧ has_error_text (failure e) = true)
      as Hfail by done.
    destruct (_ || _).
    { intros [= <- <-]. split; [done|]. split; [done|]. by intros [|]. }
    destruct (negb _).
    { intros [= <- <-]. split; [done|]. split; [done|]. by intros [|]. }
    unfold createSubmission.
    destruct (insert_submission _ _ _ _ _) as [[db' id]|e].
    + destruct (JSON_parse _); [|done]. intros [= <- <-].
      split; [lia|]. split; [done|]. by intros [|].
    + intros [= <- <-]. split; [done|]. split; [done|]. by intros [|].
  - unfold get_rooms, select_rooms. destruct (mapM _ _); [|done].
    intros [= <- <-]. split; [lia|]. split; [done|]. by intros [|].
  - destruct b as [n t c p a s]. unfold post_rooms.
    destruct (_ || _).
    { intros [= <- <-]. split; [done|]. split; [done|]. by intros [|]. }
    unfold createRoom.
    destruct (insert_room _ _ _ _ _ _ _ _) as [[db' id]|e]; intros [= <- <-].
    + split; [lia|]. split; [done|]. by intros [|].
    + split; [done|]. split; [done|]. by intros [|].
  - destruct b as [n t c p a s]. unfold put_room.
    destruct (update_room _ _ _ _ _ _ _ _ _) as [[db' ch]|e].
    + destruct (decide _); intros [= <- <-].
      * split; [done|]. split; [done|]. by intros [|].
      * split; [lia|]. split; [done|]. by intros [|].
    + intros [= <- <-]. split; [done|]. split; [done|]. by intros [|].
  - unfold delete_room_by_id.
    destruct (delete_room _ _ _) as [[db' ch]|e].
    + destruct (decide _); intros [= <- <-].
      * split; [done|]. split; [done|]. by intros [|].
      * split; [lia|]. split; [done|]. by intros [|].
    + intros [= <- <-]. split; [done|]. split; [done|]. by intros [|].
  - intros [= <- <-]. split; [done|]. split; [done|]. by intros [|].
  - intros [= <- <-]. split; [done|]. split; [done|]. by intros [|].
Qed.

Lemma envelope_of_data_endpoints_witness :
  (handle decimal noon (initial_database "2024-01-01 09:00:00")
     (PUT_room "999" another_101)).2
  = Respond 404 (failure "Room not found") ∧
  (400 ≤ 404 → has_success (failure "Room not found") = true ∧
               has_error_text (failure "Room not found") = true) ∧
  (PUT_room "999" another_101 ≠ GET_root → PUT_room "999" another_101 ≠ GET_health →
   PUT_room "999" another_101 ≠ GET_submissions → PUT_room "999" another_101 ≠ GET_rooms →
   has_success (failure "Room not found") = true) ∧
  (PUT_room "999" another_101 = GET_root ∨ PUT_room "999" another_101 = GET_health →
   has_success (failure "Room not found") = false).
Proof.
  assert ((handle decimal noon (initial_database "2024-01-01 09:00:00")
             (PUT_room "999" another_101)).2
          = Respond 404 (failure "Room not found")) as H by (by vm_compute).
  split; [exact H|].
  exact (envelope_of_data_endpoints decimal noon
           (initial_database "2024-01-01 09:00:00") (PUT_room "999" another_101)
           404 (failure "Room not found") H).
Defined.

(** On the seeded store, GET /api/rooms answers with the bare array of the
    five rooms; the first variant wraps the list of submissions in an
    envelope. *)
Lemma listings_are_bare :
  (∃ items,
     (get_rooms (initial_database "2024-01-01 09:00:00")).2 = Respond 200 (JArr items) ∧
     length items = 5%nat ∧
     has_success (JArr items) = false) ∧
  V1.get_submissions (initial_database "2024-01-01 09:00:00")
  = (initial_database "2024-01-01 09:00:00",
     Respond 200
       (JObj [ ("success", JBool true);
               ("data", JArr []);
               ("count", JNum (num_of_Z 0)) ])).
Proof.
  split; [|by vm_compute].
  eexists. split; [by vm_compute|]. done.
Qed.

(** ** The rooms table *)

Lemma number_taken_lookup (t : gmap Z rooms.row) n :
  number_taken t n ↔ ∃ i r, t !! i = Some r ∧ rooms.number r = n.
Proof. apply map_Exists_lookup. Qed.

Lemma insert_room_duplicate now db n t c p a s :
  number_taken (rooms_table db) n →
  insert_room now db (Some n) (Some t) (Some c) (Some p) a s
  = Err (Unique "rooms.number").
Proof. intros H. cbn. by rewrite decide_True. Qed.

Lemma insert_room_fresh now db n t c p a s :
  ¬ number_taken (rooms_table db) n →
  let id := next_rowid (rooms_table db) (rooms_seq db) in
  insert_room now db (Some n) (Some t) (Some c) (Some p) a s
  = Ok ({| submissions_table := submissions_table db;
           submissions_seq := submissions_seq db;
           rooms_table := <[id := rooms.Row n t c p a s now]> (rooms_table db);
           rooms_seq := id |}, id).
Proof. intros H. cbn. by rewrite decide_False. Qed.

Lemma truthy_field_val {A} `{Truthy A} (x : field A) :
  truthy x = true → ∃ a, x = Val a ∧ truthy a = true.
Proof. destruct x; try done. eauto. Qed.

Lemma where_id_None {A} rowid_of_text (t : gmap Z A) param :
  where_id rowid_of_text t param = None ↔
  ∀ i, rowid_of_text param = Some i → t !! i = None.
Proof.
  unfold where_id. destruct (rowid_of_text param) as [i|]; cbn.
  - destruct (t !! i) eqn:E; cbn; split; try done.
    + intros H. specialize (H i eq_refl). congruence.
    + by intros _ ? [= <-].
  - split; [|done]. by intros _ ? [=].
Qed.

Lemma where_id_Some {A} rowid_of_text (t : gmap Z A) param i :
  where_id rowid_of_text t param = Some i ↔
  rowid_of_text param = Some i ∧ is_Some (t !! i).
Proof.
  unfold where_id. destruct (rowid_of_text param) as [j|]; cbn.
  - destruct (t !! j) eqn:E; cbn; split.
    + intros [= <-]. by rewrite E.
    + by intros [[= <-] _].
    + done.
    + intros [[= <-] [? ?]]. congruence.
  - split; [done|]. by intros [[=] _].
Qed.

(** Each request changes the rooms table in one of the four ways. *)
Lemma handle_rooms_change rowid_of_text clk db req :
  rooms_change (rooms_table db) (rooms_table (handle rowid_of_text clk db req).1).
Proof.
  destruct req as [| | |b| |b|i b|i| |]; cbn [handle]; try by constructor.
  - unfold get_submissions, select_submissions. destruct (mapM _ _); by constructor.
  - destruct b as [n w c]. unfold post_submissions.
    destruct (_ || _); [by constructor|]. destruct (negb _); [by constructor|].
    unfold createSubmission.
    destruct (bind n), (bind w), (bind c); cbn; try by constructor.
    destruct (JSON_parse _); by constructor.
  - unfold get_rooms, select_rooms. destruct (mapM _ _); by constructor.
  - destruct b as [n t c p a s]. unfold post_rooms.
    destruct (truthy n) eqn:Hn; [|by constructor].
    destruct (truthy t) eqn:Ht; [|by constructor].
    destruct (truthy c) eqn:Hc; [|by constructor].
    destruct (truthy p) eqn:Hp; [|by constructor]. cbn [negb orb].
    apply truthy_field_val in Hn as (n' & -> & _), Ht as (t' & -> & _).
    apply truthy_field_val in Hc as (c' & -> & _), Hp as (p' & -> & _).
    unfold createRoom. cbn [bind].
    destruct (decide (number_taken (rooms_table db) n')) as [Hd|Hd].
    + rewrite insert_room_duplicate by done. by constructor.
    + rewrite insert_room_fresh by done. cbn.
      apply rooms_inserted; [apply next_rowid_fresh | done | by eexists].
  - destruct b as [n t c p a s]. unfold put_room, update_room.
    destruct (where_id _ _ _) as [j|] eqn:Hj; [|by constructor].
    apply where_id_Some in Hj as [_ [old Hold]].
    destruct (bind n) as [n'|], (bind t) as [t'|], (bind c) as [c'|],
      (bind p) as [p'|]; cbn; try by constructor.
    destruct (decide (number_taken _ _)) as [Hd|Hd]; cbn; [by constructor|].
    replace (alter _ j (rooms_table db)) with
      (<[j := rooms.Row n' t' c' p' (Some (stored_amenities a)) (bind s)
                (rooms.created_at old)]> (rooms_table db)).
    { apply rooms_updated; [by eexists | done | by eexists]. }
    apply map_eq. intros k. destruct (decide (j = k)) as [<-|Hne].
    + by rewrite lookup_insert_eq, lookup_alter_eq, Hold.
    + by rewrite lookup_insert_ne, lookup_alter_ne.
  - unfold delete_room_by_id, delete_room.
    destruct (where_id _ _ _) as [j|]; cbn; by constructor.
Qed.

Lemma numbers_unique_change t t' :
  rooms_change t t' → numbers_unique t → numbers_unique t'.
Proof.
  intros [|id row Hfresh Hfree _|id row Hold Hfree _|id] Hu; [done|..].
  - intros i j r1 r2 Hi Hj Heq.
    apply lookup_insert_Some in Hi as [[<- <-]|[Hni Hi]],
      Hj as [[<- <-]|[Hnj Hj]]; try done.
    + destruct Hfree. apply number_taken_lookup. eauto.
    + destruct Hfree. apply number_taken_lookup. eauto.
    + eauto.
  - intros i j r1 r2 Hi Hj Heq.
    apply lookup_insert_Some in Hi as [[<- <-]|[Hni Hi]],
      Hj as [[<- <-]|[Hnj Hj]]; try done.
    + destruct Hfree. apply number_taken_lookup.
      exists j, r2. by rewrite lookup_delete_ne.
    + destruct Hfree. apply number_taken_lookup.
      exists i, r1. by rewrite lookup_delete_ne.
    + eauto.
  - intros i j r1 r2 Hi%lookup_delete_Some Hj%lookup_delete_Some Heq.
    destruct Hi, Hj. eauto.
Qed.

Lemma amenities_encoded_change t t' :
  rooms_change t t' → amenities_encoded t → amenities_encoded t'.
Proof.
  intros [|id row _ _ He|id row _ _ He|id] Ha; [done|..].
  - by apply map_Forall_insert_2.
  - by apply map_Forall_insert_2.
  - by apply map_Forall_delete.
Qed.

Lemma seed_rooms_change now db room :
  rooms_change (rooms_table db) (rooms_table (seed now db room)).
Proof.
  destruct room as [[[[[n t] c] p] a] s]. unfold seed.
  destruct (decide (number_taken (rooms_table db) n)) as [Hd|Hd].
  - rewrite insert_room_duplicate by done. constructor.
  - rewrite insert_room_fresh by done. cbn.
    apply rooms_inserted; [apply next_rowid_fresh | done | by eexists].
Qed.

(** An invariant of the rooms table that the four changes keep holds in
    every store the service reaches. *)
Lemma reachable_rooms rowid_of_text (P : gmap Z rooms.row → Prop) db :
  P ∅ → (∀ t t', rooms_change t t' → P t → P t') →
  reachable rowid_of_text db → P (rooms_table db).
Proof.
  intros Hempty Hstep Hr. induction Hr as [now|clk db req _ IH].
  - unfold initial_database.
    assert (∀ l db0, P (rooms_table db0) → P (rooms_table (foldl (seed now) db0 l))) as Hfold.
    { induction l as [|room l IHl]; intros db0 H0; [done|]. cbn.
      apply IHl. eapply Hstep; [apply seed_rooms_change | done]. }
    by apply Hfold.
  - eapply Hstep; [apply handle_rooms_change | done].
Qed.

Lemma reachable_numbers_unique rowid_of_text db :
  reachable rowid_of_text db → numbers_unique (rooms_table db).
Proof.
  apply (reachable_rooms rowid_of_text numbers_unique).
  - by intros ? ? ? ? ?%lookup_empty_Some.
  - apply numbers_unique_change.
Qed.

Lemma reachable_amenities_encoded rowid_of_text db :
  reachable rowid_of_text db → amenities_encoded (rooms_table db).
Proof.
  apply (reachable_rooms rowid_of_text amenities_encoded).
  - apply map_Forall_empty.
  - apply amenities_encoded_change.
Qed.

(** ** Creating a room with a number that is taken *)

Lemma createRoom_duplicate clk db n t c p a s :
  number_taken (rooms_table db) n →
  createRoom clk db (Val n) (Val t) (Val c) (Val p) a s
  = (db, Respond 500
           (failure "Database error: SQLITE_CONSTRAINT: UNIQUE constraint failed: rooms.number")).
Proof.
  intros H. unfold createRoom. cbn [bind].
  by rewrite insert_room_duplicate.
Qed.

Lemma post_rooms_duplicate clk db body n :
  number body = Val n → number_taken (rooms_table db) n →
  post_rooms clk db body
  = (db,
     if truthy (number body) && truthy (type body)
        && truthy (capacity body) && truthy (price body)
     then Respond 500
            (failure "Database error: SQLITE_CONSTRAINT: UNIQUE constraint failed: rooms.number")
     else Respond 400
            (failure "Missing required fields: number, type, capacity, price")).
Proof.
  destruct body as [n' t c p a s]. cbn [number type capacity price]. intros -> Hd.
  unfold post_rooms.
  destruct (truthy (Val n)) eqn:Hn; [|done].
  destruct (truthy t) eqn:Ht; [|done].
  destruct (truthy c) eqn:Hc; [|done].
  destruct (truthy p) eqn:Hp; [|done]. cbn [negb orb andb].
  apply truthy_field_val in Ht as (t' & -> & _).
  apply truthy_field_val in Hc as (c' & -> & _), Hp as (p' & -> & _).
  by rewrite createRoom_duplicate.
Qed.

Lemma initial_numbers_unique now : numbers_unique (rooms_table (initial_database now)).
Proof.
  apply (reachable_numbers_unique (λ _, None)), reachable_initial.
Qed.

(** C2: in every store state, for every room-creation input (number, type,
    capacity, price, amenities, status) whose number is the number of a
    room already in the store, createRoom fails with the duplicate-key error
    of the store and leaves the store as it was, so the room count is the
    same after the failed insert.  The POST handler, on any body with such a
    number, leaves the store unchanged too: it answers with that error, or,
    when its required-field guard stops the body before createRoom, with
    the missing-field error.  No two rooms have the same number in the
    seeded store, and every operation keeps it so. *)
Theorem duplicate_number_rejected rowid_of_text clk db :
  (∀ n t c p a s,
     number_taken (rooms_table db) n →
     ∃ db',
       createRoom clk db (Val n) (Val t) (Val c) (Val p) a s
       = (db', Respond 500
                 (failure "Database error: SQLITE_CONSTRAINT: UNIQUE constraint failed: rooms.number")) ∧
       db' = db ∧ size (rooms_table db') = size (rooms_table db)) ∧
  (∀ body n,
     number body = Val n → number_taken (rooms_table db) n →
     post_rooms clk db body
     = (db,
        if truthy (number body) && truthy (type body)
           && truthy (capacity body) && truthy (price body)
        then Respond 500
               (failure "Database error: SQLITE_CONSTRAINT: UNIQUE constraint failed: rooms.number")
        else Respond 400
               (failure "Missing required fields: number, type, capacity, price"))) ∧
  (∀ now, numbers_unique (rooms_table (initial_database now))) ∧
  (∀ req,
     numbers_unique (rooms_table db) →
     numbers_unique (rooms_table (handle rowid_of_text clk db req).1)).
Proof.
  split; [|split; [|split]].
  - intros n t c p a s Hd. exists db. by rewrite createRoom_duplicate.
  - apply post_rooms_duplicate.
  - apply initial_numbers_unique.
  - intros req. apply numbers_unique_change, handle_rooms_change.
Qed.

Lemma duplicate_number_rejected_witness :
  number_taken (rooms_table (initial_database "2024-01-01 09:00:00")) "101" ∧
  createRoom noon (initial_database "2024-01-01 09:00:00")
    (Val "101") (Val "Suite") (Val (num_of_Z 4)) (Val (num_of_Z 5000))
    (Val ["WiFi"]) Undefined
  = (initial_database "2024-01-01 09:00:00",
     Respond 500
       (failure "Database error: SQLITE_CONSTRAINT: UNIQUE constraint failed: rooms.number")) ∧
  post_rooms noon (initial_database "2024-01-01 09:00:00") another_101
  = (initial_database "2024-01-01 09:00:00",
     Respond 500
       (failure "Database error: SQLITE_CONSTRAINT: UNIQUE constraint failed: rooms.number")) ∧
  numbers_unique (rooms_table (initial_database "2024-01-01 09:00:00")) ∧
  numbers_unique
    (rooms_table
       (handle decimal noon (initial_database "2024-01-01 09:00:00")
          (DELETE_room "3")).1).
Proof.
  destruct (duplicate_number_rejected decimal noon
              (initial_database "2024-01-01 09:00:00")) as (Hcreate & Hpost & Hinit & Hstep).
  assert (number_taken (rooms_table (initial_database "2024-01-01 09:00:00")) "101")
    as Htaken.
  { apply number_taken_lookup. eexists 1, _. split; [by vm_compute|done]. }
  split; [exact Htaken|].
  split.
  { destruct (Hcreate "101" "Suite" (num_of_Z 4) (num_of_Z 5000) (Val ["WiFi"])
                Undefined Htaken) as (db' & -> & -> & _). reflexivity. }
  split; [exact (Hpost another_101 "101" eq_refl Htaken)|].
  split; [exact (Hinit "2024-01-01 09:00:00")|].
  exact (Hstep (DELETE_room "3") (Hinit "2024-01-01 09:00:00")).
Defined.

(** ** Updating and deleting a room *)

Lemma num_of_Z_inj a b : num_of_Z a = num_of_Z b → a = b.
Proof.
  unfold num_of_Z. intros [= Hs Hm].
  destruct (Z.ltb_spec a 0), (Z.ltb_spec b 0); try done; lia.
Qed.

Lemma room_view_id k r item :
  room_view (k, r) = Some item → get item "id" = Some (JNum (num_of_Z k)).
Proof.
  unfold room_view. destruct (read_amenities _); [|done].
  by intros [= <-].
Qed.

Lemma select_rooms_elem db rows k r :
  select_rooms db = Ok rows → (k, r) ∈ rows ↔ rooms_table db !! k = Some r.
Proof.
  intros [= <-]. rewrite merge_sort_Permutation. apply elem_of_map_to_list.
Qed.

Lemma put_room_absent rowid_of_text db roomId body :
  where_id rowid_of_text (rooms_table db) roomId = None →
  put_room rowid_of_text db roomId body = (db, Respond 404 (failure "Room not found")).
Proof.
  intros H. destruct body as [n t c p a s]. unfold put_room, update_room.
  by rewrite H.
Qed.

Lemma delete_room_absent rowid_of_text db roomId :
  where_id rowid_of_text (rooms_table db) roomId = None →
  delete_room_by_id rowid_of_text db roomId = (db, Respond 404 (failure "Room not found")).
Proof. intros H. unfold delete_room_by_id, delete_room. by rewrite H. Qed.

Lemma delete_room_present rowid_of_text db roomId i :
  where_id rowid_of_text (rooms_table db) roomId = Some i →
  delete_room_by_id rowid_of_text db roomId
  = ({| submissions_table := submissions_table db;
        submissions_seq := submissions_seq db;
        rooms_table := delete i (rooms_table db);
        rooms_seq := rooms_seq db |},
     Respond 200
       (JObj [ ("success", JBool true);
               ("message", JStr "Room deleted successfully") ])).
Proof. intros H. unfold delete_room_by_id, delete_room. by rewrite H. Qed.

(** C3: in every store state, for an id that designates no stored room,
    updateRoom (with any fields) and deleteRoom each answer 404 "Room not
    found" and leave the store exactly as it was.  For an id that designates
    a stored room, deleteRoom removes that record and no other; a listing
    made afterwards does not contain it; and deleting the same id again
    answers 404. *)
Theorem unknown_room_is_not_found rowid_of_text db :
  (∀ roomId body,
     (∀ i, rowid_of_text roomId = Some i → rooms_table db !! i = None) →
     put_room rowid_of_text db roomId body
     = (db, Respond 404 (failure "Room not found")) ∧
     delete_room_by_id rowid_of_text db roomId
     = (db, Respond 404 (failure "Room not found"))) ∧
  (∀ roomId i row,
     rowid_of_text roomId = Some i → rooms_table db !! i = Some row →
     ∃ db',
       delete_room_by_id rowid_of_text db roomId
       = (db', Respond 200
                 (JObj [ ("success", JBool true);
                         ("message", JStr "Room deleted successfully") ])) ∧
       rooms_table db' = delete i (rooms_table db) ∧
       submissions_table db' = submissions_table db ∧
       S (size (rooms_table db')) = size (rooms_table db) ∧
       (∃ before after,
          select_rooms db = Ok before ∧ select_rooms db' = Ok after ∧
          before ≡ₚ (i, row) :: after ∧ ∀ r, (i, r) ∉ after) ∧
       (∀ status items item,
          (get_rooms db').2 = Respond status (JArr items) → item ∈ items →
          get item "id" ≠ Some (JNum (num_of_Z i))) ∧
       delete_room_by_id rowid_of_text db' roomId
       = (db', Respond 404 (failure "Room not found"))).
Proof.
  split.
  - intros roomId body Habsent. apply where_id_None in Habsent.
    by rewrite put_room_absent, delete_room_absent.
  - intros roomId i row Hid Hrow.
    assert (where_id rowid_of_text (rooms_table db) roomId = Some i) as Hw.
    { apply where_id_Some. by rewrite Hrow. }
    rewrite (delete_room_present _ _ _ _ Hw). eexists. split; [done|].
    cbn [rooms_table submissions_table]. split; [done|]. split; [done|].
    split.
    { rewrite <- !length_map_to_list, <- (map_to_list_delete _ _ _ Hrow). done. }
    split; [|split].
    + eexists _, _. split; [done|]. split; [done|]. cbn [rooms_table]. split.
      * rewrite !merge_sort_Permutation. symmetry. by apply map_to_list_delete.
      * intros r. rewrite merge_sort_Permutation, elem_of_map_to_list.
        by rewrite lookup_delete_eq.
    + intros status items item Hget Hitem.
      unfold get_rooms, select_rooms in Hget. cbn [rooms_table] in Hget.
      destruct (mapM _ _) as [items'|] eqn:Hmap; [|done].
      injection Hget as _ <-. apply mapM_Some in Hmap.
      apply list_elem_of_lookup in Hitem as [pos Hpos].
      destruct (Forall2_lookup_r _ _ _ _ _ Hmap Hpos) as ([k r] & Hk & Hview).
      rewrite (room_view_id _ _ _ Hview). intros Heq.
      assert (k = i) as -> by (apply num_of_Z_inj; congruence).
      apply list_elem_of_lookup_2 in Hk.
      rewrite merge_sort_Permutation, elem_of_map_to_list in Hk.
      by rewrite lookup_delete_eq in Hk.
    + apply delete_room_absent, where_id_None. cbn [rooms_table].
      intros j Hj. assert (j = i) as -> by congruence. apply lookup_delete_eq.
Qed.

Lemma unknown_room_is_not_found_witness :
  (∀ i, decimal "999" = Some i →
        rooms_table (initial_database "2024-01-01 09:00:00") !! i = None) ∧
  put_room decimal (initial_database "2024-01-01 09:00:00") "999" another_101
  = (initial_database "2024-01-01 09:00:00", Respond 404 (failure "Room not found")) ∧
  decimal "3" = Some 3 ∧
  rooms_table (initial_database "2024-01-01 09:00:00") !! 3
  = Some (rooms.Row "201" "Deluxe" (num_of_Z 3) (num_of_Z 3500)
            (Some (JSON_stringify ["WiFi"; "AC"; "TV"; "Mini Bar"]))
            (Some "available") "2024-01-01 09:00:00") ∧
  ∃ db',
    delete_room_by_id decimal (initial_database "2024-01-01 09:00:00") "3"
    = (db', Respond 200
              (JObj [ ("success", JBool true);
                      ("message", JStr "Room deleted successfully") ])) ∧
    delete_room_by_id decimal db' "3" = (db', Respond 404 (failure "Room not found")).
Proof.
  destruct (unknown_room_is_not_found decimal
              (initial_database "2024-01-01 09:00:00")) as [Habsent Hpresent].
  assert (∀ i, decimal "999" = Some i →
               rooms_table (initial_database "2024-01-01 09:00:00") !! i = None) as H999.
  { intros i [= <-]. by vm_compute. }
  split; [exact H999|].
  split; [exact (proj1 (Habsent "999" another_101 H999))|].
  split; [reflexivity|].
  assert (rooms_table (initial_database "2024-01-01 09:00:00") !! 3
          = Some (rooms.Row "201" "Deluxe" (num_of_Z 3) (num_of_Z 3500)
                    (Some (JSON_stringify ["WiFi"; "AC"; "TV"; "Mini Bar"]))
                    (Some "available") "2024-01-01 09:00:00")) as H3
    by (by vm_compute).
  split; [exact H3|].
  destruct (Hpresent "3" 3 _ eq_refl H3) as (db' & Hdel & _ & _ & _ & _ & _ & Hagain).
  exists db'. by split.
Defined.

(** ** Listing the rooms *)

#[local] Instance by_number_total : Total by_number.
Proof. intros a b. apply (total String.le). Qed.

#[local] Instance by_number_transitive : Transitive by_number.
Proof. intros a b c. unfold by_number. apply transitivity. Qed.

Lemma room_view_encoded k r labels :
  rooms.amenities r = Some (JSON_stringify labels) →
  room_view (k, r)
  = Some (JObj
      [ ("id", JNum (num_of_Z k));
        ("number", JStr (rooms.number r));
        ("type", JStr (rooms.type r));
        ("capacity", JNum (rooms.capacity r));
        ("price", JNum (rooms.price r));
        ("amenities", JArr (JStr <$> labels));
        ("status", column (rooms.status r));
        ("createdAt", JStr (rooms.created_at r)) ]).
Proof.
  intros H. unfold room_view, read_amenities. rewrite H.
  by rewrite JSON_stringify_truthy, JSON_parse_stringify.
Qed.

Lemma room_view_number k r item :
  room_view (k, r) = Some item → get item "number" = Some (JStr (rooms.number r)).
Proof.
  unfold room_view. destruct (read_amenities _); [|done].
  by intros [= <-].
Qed.

(** C6: listRooms selects all the stored rooms, ordered by the text of
    their number, ascending; in every store the service reaches the handler
    answers with the array of these rooms, in this order; and on the freshly
    seeded store they are the five sample rooms 101, 102, 201, 202, 301, in
    this order. *)
Theorem rooms_are_listed_by_number rowid_of_text db :
  (∃ rows,
     select_rooms db = Ok rows ∧
     rows ≡ₚ map_to_list (rooms_table db) ∧
     StronglySorted by_number rows) ∧
  (reachable rowid_of_text db →
   ∃ rows items,
     select_rooms db = Ok rows ∧
     get_rooms db = (db, Respond 200 (JArr items)) ∧
     Forall2 (λ r item, room_view r = Some item ∧
                        get item "number" = Some (JStr (rooms.number r.2)))
       rows items) ∧
  (∀ now,
     select_rooms (initial_database now)
     = Ok [ (1, rooms.Row "101" "Standard" (num_of_Z 2) (num_of_Z 2500)
                  (Some (JSON_stringify ["WiFi"; "AC"; "TV"])) (Some "available") now);
            (2, rooms.Row "102" "Standard" (num_of_Z 2) (num_of_Z 2500)
                  (Some (JSON_stringify ["WiFi"; "AC"; "TV"])) (Some "occupied") now);
            (3, rooms.Row "201" "Deluxe" (num_of_Z 3) (num_of_Z 3500)
                  (Some (JSON_stringify ["WiFi"; "AC"; "TV"; "Mini Bar"]))
                  (Some "available") now);
            (4, rooms.Row "202" "Deluxe" (num_of_Z 3) (num_of_Z 3500)
                  (Some (JSON_stringify ["WiFi"; "AC"; "TV"; "Mini Bar"]))
                  (Some "maintenance") now);
            (5, rooms.Row "301" "Suite" (num_of_Z 4) (num_of_Z 5000)
                  (Some (JSON_stringify ["WiFi"; "AC"; "TV"; "Mini Bar"; "Balcony"]))
                  (Some "available") now) ] ∧
     ∃ items,
       get_rooms (initial_database now)
       = (initial_database now, Respond 200 (JArr items)) ∧
       (λ item, get item "number") <$> items
       = [ Some (JStr "101"); Some (JStr "102"); Some (JStr "201");
           Some (JStr "202"); Some (JStr "301") ]).
Proof.
  split; [|split].
  - eexists. split; [done|]. split.
    + apply merge_sort_Permutation.
    + apply StronglySorted_merge_sort; apply _.
  - intros Hr. apply reachable_amenities_encoded in Hr.
    unfold get_rooms, select_rooms.
    set (rows := merge_sort by_number (map_to_list (rooms_table db))).
    assert (Forall (λ r, encoded r.2) rows) as Henc.
    { apply Forall_forall. intros [k r] Hk. unfold rows in Hk.
      rewrite merge_sort_Permutation in Hk. apply elem_of_map_to_list in Hk.
      by apply (Hr k r). }
    assert (∃ items, Forall2 (λ r item, room_view r = Some item) rows items)
      as [items Hitems].
    { clear -Henc. induction Henc as [|[k r] l [labels Hl] _ [items IH]].
      - by exists [].
      - eexists (_ :: items). constructor; [|done].
        by apply (room_view_encoded k r labels). }
    exists rows, items. split; [done|].
    rewrite (mapM_Some_2 _ _ _ Hitems). split; [done|].
    eapply Forall2_impl; [exact Hitems|].
    intros [k r] item Hv. split; [done|]. by apply (room_view_number k).
  - intros now. split; [by vm_compute|].
    eexists. split; [by vm_compute|]. by vm_compute.
Qed.

Lemma rooms_are_listed_by_number_witness :
  reachable decimal
    (handle decimal noon (initial_database "2024-01-01 09:00:00") (DELETE_room "3")).1 ∧
  ∃ rows items,
    select_rooms
      (handle decimal noon (initial_database "2024-01-01 09:00:00") (DELETE_room "3")).1
    = Ok rows ∧
    get_rooms
      (handle decimal noon (initial_database "2024-01-01 09:00:00") (DELETE_room "3")).1
    = ((handle decimal noon (initial_database "2024-01-01 09:00:00") (DELETE_room "3")).1,
       Respond 200 (JArr items)) ∧
    Forall2 (λ r item, room_view r = Some item ∧
                       get item "number" = Some (JStr (rooms.number r.2)))
      rows items.
Proof.
  assert (reachable decimal
            (handle decimal noon (initial_database "2024-01-01 09:00:00")
               (DELETE_room "3")).1) as Hr.
  { apply reachable_step, reachable_initial. }
  split; [exact Hr|].
  exact (proj1 (proj2 (rooms_are_listed_by_number decimal _)) Hr).
Defined.

(** ** The scenarios of the specification, run *)

Example need_ac_parsed : JSON_parse need_ac = Some (JObj [("title", JStr "Need AC")]).
Proof. by vm_compute. Qed.

(** Jane's room request, created and then listed. *)
Example jane_created_then_listed :
  (get_submissions (post_submissions noon empty_database jane_room_request).1).2
  = Respond 200
      (JArr [ JObj [ ("id", JNum (num_of_Z 1));
                     ("studentName", JStr "Jane");
                     ("type", JStr "room_request");
                     ("title", JStr "Need AC");
                     ("description", JStr EmptyString);
                     ("data", JObj []);
                     ("submittedAt", JStr "2024-01-01 12:00:00");
                     ("studentId", JUndefined);
                     ("studentEmail", JUndefined) ] ]).
Proof. by vm_compute. Qed.

(** After a report whose content is not JSON text, the listing throws too. *)
Example listing_after_plain_report :
  (get_submissions (post_submissions noon empty_database jane_plain_report).1).2 = Throws.
Proof. by vm_compute. Qed.

(** PUT /api/rooms/999 on the seeded store. *)
Example put_unknown_room :
  (put_room decimal (initial_database "2024-01-01 09:00:00") "999" another_101).2
  = Respond 404 (failure "Room not found").
Proof. by vm_compute. Qed.

(** Renumbering room 102 to 101 is refused, renumbering it to 103 is not. *)
Example renumber_room :
  (put_room decimal (initial_database "2024-01-01 09:00:00") "2" another_101).2
  = Respond 500
      (failure "Database error: SQLITE_CONSTRAINT: UNIQUE constraint failed: rooms.number") ∧
  (put_room decimal (initial_database "2024-01-01 09:00:00") "2"
     {| number := Val "103"; type := Val "Suite";
        capacity := Val (num_of_Z 4); price := Val (num_of_Z 5000);
        amenities := Undefined; status := Undefined |}).2
  = Respond 200
      (JObj [ ("success", JBool true);
              ("message", JStr "Room updated successfully") ]).
Proof. split; by vm_compute. Qed.

(** A room deleted and one created: the new room does not take the id of
    the deleted one. *)
Example deleted_id_not_reused :
  (createRoom noon
     (delete_room_by_id decimal (initial_database "2024-01-01 09:00:00") "5").1
     (Val "401") (Val "Suite") (Val (num_of_Z 4)) (Val (num_of_Z 5000))
     Undefined Undefined).2
  = Respond 200
      (JObj [ ("success", JBool true);
              ("data",
               JObj [ ("id", JNum (num_of_Z 6));
                      ("number", JStr "401");
                      ("type", JStr "Suite");
                      ("capacity", JNum (num_of_Z 4));
                      ("price", JNum (num_of_Z 5000));
                      ("amenities", JArr []);
                      ("status", JStr "available");
                      ("createdAt", JStr "2024-01-01T12:00:00.250Z") ]);
              ("message", JStr "Room created successfully") ]).
Proof. by vm_compute. Qed.

(** * Further properties of the handlers *)

(** ** Errors and the store *)

Lemma update_room_unchanged rowid_of_text db n t c p a s param db' :
  update_room rowid_of_text db n t c p a s param = Ok (db', 0%nat) → db' = db.
Proof.
  unfold update_room. destruct (where_id _ _ _); [|by intros [= <-]].
  destruct n, t, c, p; cbn; try done.
  by destruct (decide _).
Qed.

Lemma delete_room_unchanged rowid_of_text db param db' :
  delete_room rowid_of_text db param = Ok (db', 0%nat) → db' = db.
Proof.
  unfold delete_room. destruct (where_id _ _ _); [done|by intros [= <-]].
Qed.

(** X1: whatever the request, a response with a status of 400 or more comes
    with the store exactly as it was before the request: validation errors,
    not-found answers and database errors write nothing. *)
Theorem error_leaves_store_unchanged rowid_of_text clk db req db' status body :
  handle rowid_of_text clk db req = (db', Respond status body) →
  400 ≤ status → db' = db.
Proof.
  destruct req as [| | |b| |b|i b|i| |]; cbn [handle].
  - by intros [= <- _ _].
  - by intros [= <- _ _].
  - unfold get_submissions, select_submissions.
    destruct (mapM _ _); [|done]. by intros [= <- _ _].
  - destruct b as [n w c]. unfold post_submissions.
    destruct (_ || _); [by intros [= <- _ _]|].
    destruct (negb _); [by intros [= <- _ _]|]. unfold createSubmission.
    destruct (insert_submission _ _ _ _ _) as [[db1 id]|e]; [|by intros [= <- _ _]].
    destruct (JSON_parse _); [|done]. intros [= _ <- _]. lia.
  - unfold get_rooms, select_rooms.
    destruct (mapM _ _); [|done]. by intros [= <- _ _].
  - destruct b as [n t c p a s]. unfold post_rooms.
    destruct (_ || _); [by intros [= <- _ _]|]. unfold createRoom.
    destruct (insert_room _ _ _ _ _ _ _ _) as [[db1 id]|e]; [|by intros [= <- _ _]].
    intros [= _ <- _]. lia.
  - destruct b as [n t c p a s]. unfold put_room.
    destruct (update_room _ _ _ _ _ _ _ _ _) as [[db1 ch]|e] eqn:E;
      [|by intros [= <- _ _]].
    destruct (decide (ch = 0%nat)) as [->|]; [|intros [= _ <- _]; lia].
    intros [= <- _ _] _. by eapply update_room_unchanged.
  - unfold delete_room_by_id.
    destruct (delete_room _ _ _) as [[db1 ch]|e] eqn:E; [|by intros [= <- _ _]].
    destruct (decide (ch = 0%nat)) as [->|]; [|intros [= _ <- _]; lia].
    intros [= <- _ _] _. by eapply delete_room_unchanged.
  - by intros [= <- _ _].
  - by intros [= <- _ _].
Qed.

Lemma error_leaves_store_unchanged_witness :
  handle decimal noon (initial_database "2024-01-01 09:00:00") (POST_rooms another_101)
  = (initial_database "2024-01-01 09:00:00",
     Respond 500
       (failure "Database error: SQLITE_CONSTRAINT: UNIQUE constraint failed: rooms.number")) ∧
  400 ≤ 500 ∧
  initial_database "2024-01-01 09:00:00" = initial_database "2024-01-01 09:00:00".
Proof.
  assert (handle decimal noon (initial_database "2024-01-01 09:00:00")
            (POST_rooms another_101)
          = (initial_database "2024-01-01 09:00:00",
             Respond 500
               (failure "Database error: SQLITE_CONSTRAINT: UNIQUE constraint failed: rooms.number")))
    as H by (by vm_compute).
  split; [exact H|]. split; [done|].
  exact (error_leaves_store_unchanged decimal noon _ _ _ _ _ H ltac:(done)).
Defined.

(** ** Submissions are only ever added *)

Lemma handle_submissions_kept rowid_of_text clk db req :
  submissions_table db ⊆ submissions_table (handle rowid_of_text clk db req).1.
Proof.
  destruct req as [| | |b| |b|i b|i| |]; cbn [handle]; try done.
  - unfold get_submissions, select_submissions. by destruct (mapM _ _).
  - destruct b as [n w c]. unfold post_submissions.
    destruct (_ || _); [done|]. destruct (negb _); [done|].
    unfold createSubmission.
    destruct (bind n), (bind w), (bind c); cbn; try done.
    destruct (JSON_parse _); cbn; apply insert_subseteq, next_rowid_fresh.
  - unfold get_rooms, select_rooms. by destruct (mapM _ _).
  - destruct b as [n t c p a s]. unfold post_rooms.
    destruct (_ || _); [done|]. unfold createRoom.
    destruct (bind n), (bind t), (bind c), (bind p); cbn; try done.
    by destruct (decide _).
  - destruct b as [n t c p a s]. unfold put_room, update_room.
    destruct (where_id _ _ _); [|done].
    destruct (bind n), (bind t), (bind c), (bind p); cbn; try done.
    by destruct (decide _).
  - unfold delete_room_by_id, delete_room. by destruct (where_id _ _ _).
Qed.

Lemma serve_submissions_kept rowid_of_text db requests :
  submissions_table db ⊆ submissions_table (serve rowid_of_text db requests).
Proof.
  revert db. induction requests as [|[clk req] rest IH]; intros db; [done|].
  cbn [serve]. etrans; [apply handle_submissions_kept|apply IH].
Qed.

(** X2: submissions are append-only.  Whatever requests follow, a stored
    submission stays in the store under its id with its student name, work
    type, content and creation time unchanged; no request updates or deletes
    one, so the number of submissions never goes down. *)
Theorem submissions_are_append_only rowid_of_text db requests id row :
  submissions_table db !! id = Some row →
  submissions_table (serve rowid_of_text db requests) !! id = Some row ∧
  (size (submissions_table db) ≤ size (submissions_table (serve rowid_of_text db requests)))%nat.
Proof.
  intros Hrow. pose proof (serve_submissions_kept rowid_of_text db requests) as Hsub.
  split.
  - by eapply lookup_weaken.
  - by apply map_subseteq_size.
Qed.

Lemma submissions_are_append_only_witness :
  submissions_table (post_submissions noon empty_database jane_room_request).1 !! 1
  = Some (submissions.Row "Jane" "room_request" need_ac "2024-01-01 12:00:00") ∧
  submissions_table
    (serve decimal (post_submissions noon empty_database jane_room_request).1
       [ (noon, DELETE_room "1"); (noon, POST_submissions jane_plain_report) ]) !! 1
  = Some (submissions.Row "Jane" "room_request" need_ac "2024-01-01 12:00:00") ∧
  (size (submissions_table (post_submissions noon empty_database jane_room_request).1)
   ≤ size (submissions_table
             (serve decimal (post_submissions noon empty_database jane_room_request).1
                [ (noon, DELETE_room "1"); (noon, POST_submissions jane_plain_report) ])))%nat.
Proof.
  assert (submissions_table (post_submissions noon empty_database jane_room_request).1 !! 1
          = Some (submissions.Row "Jane" "room_request" need_ac "2024-01-01 12:00:00"))
    as H by (by vm_compute).
  split; [exact H|].
  exact (submissions_are_append_only decimal _ _ 1 _ H).
Defined.

(** ** Room ids are not reused *)

Lemma handle_rooms_ids rowid_of_text clk db req :
  rooms_seq db ≤ rooms_seq (handle rowid_of_text clk db req).1 ∧
  ∀ k, is_Some (rooms_table (handle rowid_of_text clk db req).1 !! k) →
       is_Some (rooms_table db !! k) ∨
       (rooms_seq db < k ∧ k ≤ rooms_seq (handle rowid_of_text clk db req).1).
Proof.
  assert (rooms_seq db ≤ rooms_seq db ∧
          ∀ k, is_Some (rooms_table db !! k) →
               is_Some (rooms_table db !! k) ∨ (rooms_seq db < k ∧ k ≤ rooms_seq db))
    as Hsame by (split; [lia|auto]).
  destruct req as [| | |b| |b|i b|i| |]; cbn [handle]; try done.
  - unfold get_submissions, select_submissions. by destruct (mapM _ _).
  - destruct b as [n w c]. unfold post_submissions.
    destruct (_ || _); [done|]. destruct (negb _); [done|].
    unfold createSubmission.
    destruct (bind n), (bind w), (bind c); cbn; try done.
    by destruct (JSON_parse _).
  - unfold get_rooms, select_rooms. by destruct (mapM _ _).
  - destruct b as [n t c p a s]. unfold post_rooms.
    destruct (_ || _); [done|]. unfold createRoom.
    destruct (bind n), (bind t), (bind c), (bind p); cbn; try done.
    destruct (decide _); [done|]. cbn.
    pose proof (next_rowid_above_seq (rooms_table db) (rooms_seq db)).
    split; [lia|]. intros k [x Hk].
    apply lookup_insert_Some in Hk as [[<- _]|[_ Hk]]; [right; lia|left; eauto].
  - destruct b as [n t c p a s]. unfold put_room, update_room.
    destruct (where_id _ _ _); [|done].
    destruct (bind n), (bind t), (bind c), (bind p); cbn; try done.
    destruct (decide (number_taken _ _)); [done|]. cbn.
    destruct (decide (1%nat = 0%nat)); [done|]. cbn. split; [lia|].
    intros k Hk. left. by apply lookup_alter_is_Some in Hk.
  - unfold delete_room_by_id, delete_room.
    destruct (where_id _ _ _); [|done]. cbn.
    destruct (decide (1%nat = 0%nat)); [done|]. cbn. split; [lia|].
    intros k [x Hk]. left. apply lookup_delete_Some in Hk as [_ Hk]. eauto.
Qed.

Lemma serve_rooms_ids rowid_of_text db requests :
  rooms_seq db ≤ rooms_seq (serve rowid_of_text db requests) ∧
  ∀ k, is_Some (rooms_table (serve rowid_of_text db requests) !! k) →
       is_Some (rooms_table db !! k) ∨ rooms_seq db < k.
Proof.
  revert db. induction requests as [|[clk req] rest IH]; intros db.
  - split; [done|auto].
  - cbn [serve].
    destruct (handle_rooms_ids rowid_of_text clk db req) as [Hseq Hids].
    destruct (IH (handle rowid_of_text clk db req).1) as [Hseq' Hids'].
    split; [lia|]. intros k Hk.
    destruct (Hids' k Hk) as [Hk1|Hk1]; [|right; lia].
    destruct (Hids k Hk1) as [?|[? ?]]; auto.
Qed.

(** In every store the service reaches, no room has an id above the
    AUTOINCREMENT sequence. *)
Lemma reachable_ids_bounded rowid_of_text db :
  reachable rowid_of_text db →
  ∀ k, is_Some (rooms_table db !! k) → k ≤ rooms_seq db.
Proof.
  intros Hr. induction Hr as [now|clk db req _ IH].
  - unfold initial_database.
    assert (∀ l db0,
              (∀ k, is_Some (rooms_table db0 !! k) → k ≤ rooms_seq db0) →
              ∀ k, is_Some (rooms_table (foldl (seed now) db0 l) !! k) →
                   k ≤ rooms_seq (foldl (seed now) db0 l)) as Hfold.
    { induction l as [|room l IHl]; intros db0 H0; [done|]. cbn.
      apply IHl. destruct room as [[[[[n t] c] p] a] s]. unfold seed.
      destruct (decide (number_taken (rooms_table db0) n)) as [Hd|Hd].
      - by rewrite insert_room_duplicate.
      - rewrite insert_room_fresh by done. cbn. intros k [x Hk].
        apply lookup_insert_Some in Hk as [[<- _]|[_ Hk]]; [done|].
        apply Z.lt_le_incl, next_rowid_gt. eauto. }
    apply Hfold. intros k [x Hx]. cbn in Hx. by rewrite lookup_empty in Hx.
  - intros k Hk.
    destruct (handle_rooms_ids rowid_of_text clk db req) as [Hseq Hids].
    destruct (Hids k Hk) as [Hk1|[_ ?]]; [|done].
    specialize (IH k Hk1). lia.
Qed.

(** X3: room ids are never reused.  In a store the service has reached,
    once a room is deleted its id stays free whatever requests follow, and
    every room found after further requests is either a room that was
    already there or has an id greater than the id of every room there. *)
Theorem deleted_room_id_never_returns rowid_of_text db :
  reachable rowid_of_text db →
  (∀ roomId k clk requests,
     rowid_of_text roomId = Some k → is_Some (rooms_table db !! k) →
     rooms_table
       (serve rowid_of_text (handle rowid_of_text clk db (DELETE_room roomId)).1 requests)
     !! k = None) ∧
  (∀ requests k',
     is_Some (rooms_table (serve rowid_of_text db requests) !! k') →
     is_Some (rooms_table db !! k') ∨
     ∀ k, is_Some (rooms_table db !! k) → k < k').
Proof.
  intros Hr. pose proof (reachable_ids_bounded _ _ Hr) as Hb. split.
  - intros roomId k clk requests Hid Hk.
    assert (where_id rowid_of_text (rooms_table db) roomId = Some k) as Hw
      by (by apply where_id_Some).
    cbn [handle]. rewrite (delete_room_present _ _ _ _ Hw). cbn [fst].
    match goal with |- rooms_table (serve _ ?d _) !! _ = _ => set (db1 := d) end.
    destruct (rooms_table (serve rowid_of_text db1 requests) !! k) eqn:E; [|done].
    destruct (serve_rooms_ids rowid_of_text db1 requests) as [_ Hids].
    destruct (Hids k) as [[x Hx]|Hlt]; [by rewrite E|..].
    + unfold db1 in Hx. cbn in Hx. by rewrite lookup_delete_eq in Hx.
    + unfold db1 in Hlt. cbn in Hlt. specialize (Hb k Hk). lia.
  - intros requests k' Hk'.
    destruct (serve_rooms_ids rowid_of_text db requests) as [_ Hids].
    destruct (Hids k' Hk') as [?|Hlt]; [by left|right].
    intros k Hk. specialize (Hb k Hk). lia.
Qed.

Lemma deleted_room_id_never_returns_witness :
  reachable decimal opening ∧
  rooms_table
    (serve decimal (handle decimal noon opening (DELETE_room "3")).1
       [ (noon, POST_rooms suite_401) ]) !! 3 = None ∧
  (is_Some (rooms_table (serve decimal opening [ (noon, POST_rooms suite_401) ]) !! 6) →
   is_Some (rooms_table opening !! 6) ∨
   ∀ k, is_Some (rooms_table opening !! k) → k < 6).
Proof.
  assert (reachable decimal opening) as Hr by apply reachable_initial.
  destruct (deleted_room_id_never_returns decimal opening Hr) as [Hdeleted Hlater].
  split; [exact Hr|]. split.
  - apply (Hdeleted "3" 3 noon); [done|by eexists].
  - apply Hlater.
Defined.

(** ** Creating a room *)

Lemma post_rooms_present clk db n t c p a s :
  truthy n = true → truthy t = true → truthy c = true → truthy p = true →
  post_rooms clk db (RoomBody (Val n) (Val t) (Val c) (Val p) a s)
  = createRoom clk db (Val n) (Val t) (Val c) (Val p) a s.
Proof.
  intros Hn Ht Hc Hp. unfold post_rooms. cbn [truthy truthy_field].
  by rewrite Hn, Ht, Hc, Hp.
Qed.

Lemma createRoom_fresh clk db n t c p a s :
  ¬ number_taken (rooms_table db) n →
  let id := next_rowid (rooms_table db) (rooms_seq db) in
  createRoom clk db (Val n) (Val t) (Val c) (Val p) a s
  = ({| submissions_table := submissions_table db;
        submissions_seq := submissions_seq db;
        rooms_table :=
          <[id := rooms.Row n t c p (Some (JSON_stringify (or_default a [])))
                    (Some (or_default s "available")) (CURRENT_TIMESTAMP clk)]>
            (rooms_table db);
        rooms_seq := id |},
     Respond 200
       (JObj [ ("success", JBool true);
               ("data",
                JObj [ ("id", JNum (num_of_Z id));
                       ("number", JStr n);
                       ("type", JStr t);
                       ("capacity", JNum c);
                       ("price", JNum p);
                       ("amenities", JArr (JStr <$> or_default a []));
                       ("status", JStr (or_default s "available"));
                       ("createdAt", JStr (toISOString clk)) ]);
               ("message", JStr "Room created successfully") ])).
Proof.
  intros Hfree. unfold createRoom. cbn [bind].
  by rewrite insert_room_fresh.
Qed.

(** X4: a room is created when the four required fields are present and
    truthy and the number is free.  The answer is 200 with the new room; the
    store gains exactly that room, under an id that no room has and that is
    above the sequence, with the amenities as JSON text (the empty array
    when absent), the status defaulting to available, and the creation time
    of the store; submissions are untouched. *)
Theorem created_room_is_stored clk db n t c p a s :
  truthy n = true → truthy t = true → truthy c = true → truthy p = true →
  ¬ number_taken (rooms_table db) n →
  ∃ id,
    post_rooms clk db (RoomBody (Val n) (Val t) (Val c) (Val p) a s)
    = ({| submissions_table := submissions_table db;
          submissions_seq := submissions_seq db;
          rooms_table :=
            <[id := rooms.Row n t c p (Some (JSON_stringify (or_default a [])))
                      (Some (or_default s "available")) (CURRENT_TIMESTAMP clk)]>
              (rooms_table db);
          rooms_seq := id |},
       Respond 200
         (JObj [ ("success", JBool true);
                 ("data",
                  JObj [ ("id", JNum (num_of_Z id));
                         ("number", JStr n);
                         ("type", JStr t);
                         ("capacity", JNum c);
                         ("price", JNum p);
                         ("amenities", JArr (JStr <$> or_default a []));
                         ("status", JStr (or_default s "available"));
                         ("createdAt", JStr (toISOString clk)) ]);
                 ("message", JStr "Room created successfully") ])) ∧
    rooms_table db !! id = None ∧
    rooms_seq db < id ∧
    (∀ k, is_Some (rooms_table db !! k) → k < id) ∧
    size (<[id := rooms.Row n t c p (Some (JSON_stringify (or_default a [])))
                    (Some (or_default s "available")) (CURRENT_TIMESTAMP clk)]>
            (rooms_table db))
    = S (size (rooms_table db)).
Proof.
  intros Hn Ht Hc Hp Hfree.
  exists (next_rowid (rooms_table db) (rooms_seq db)).
  rewrite post_rooms_present, createRoom_fresh by done.
  split; [done|]. split; [apply next_rowid_fresh|].
  split; [apply next_rowid_above_seq|]. split; [apply next_rowid_gt|].
  apply map_size_insert_None, next_rowid_fresh.
Qed.

Lemma created_room_is_stored_witness :
  truthy "401" = true ∧ truthy "Suite" = true ∧
  truthy (num_of_Z 4) = true ∧ truthy (num_of_Z 5000) = true ∧
  ¬ number_taken (rooms_table opening) "401" ∧
  ∃ id,
    (post_rooms noon opening suite_401).2
    = Respond 200
        (JObj [ ("success", JBool true);
                ("data",
                 JObj [ ("id", JNum (num_of_Z id));
                        ("number", JStr "401");
                        ("type", JStr "Suite");
                        ("capacity", JNum (num_of_Z 4));
                        ("price", JNum (num_of_Z 5000));
                        ("amenities", JArr [JStr "WiFi"; JStr "AC"]);
                        ("status", JStr "available");
                        ("createdAt", JStr "2024-01-01T12:00:00.250Z") ]);
                ("message", JStr "Room created successfully") ]) ∧
    rooms_table opening !! id = None ∧
    is_Some (rooms_table (post_rooms noon opening suite_401).1 !! id) ∧
    5 < id.
Proof.
  assert (¬ number_taken (rooms_table opening) "401") as Hfree.
  { apply (bool_decide_unpack _). vm_compute. reflexivity. }
  repeat (split; [done|]).
  destruct (created_room_is_stored noon opening "401" "Suite" (num_of_Z 4) (num_of_Z 5000)
              (Val ["WiFi"; "AC"]) Undefined)
    as (id & Hpost & Hnew & _ & Habove & _); [done..|].
  exists id. change (RoomBody _ _ _ _ _ _) with suite_401 in Hpost.
  rewrite Hpost. split; [done|]. split; [exact Hnew|]. split.
  - cbn [fst rooms_table]. rewrite lookup_insert_eq. by eexists.
  - apply Habove. by eexists.
Defined.

(** X5: POST /api/rooms always answers, in one of three ways: 400 when a
    required field is absent, null, empty or zero; 500 when the fields are
    there and the number is taken; 200 when they are there and the number is
    free.  Only the last one writes, and it adds one room. *)
Theorem post_rooms_outcomes clk db body :
  ∃ db' status payload,
    post_rooms clk db body = (db', Respond status payload) ∧
    ((status = 400 ∧ room_fields_present body = false ∧ db' = db) ∨
     (status = 500 ∧ room_fields_present body = true ∧ db' = db ∧
      ∃ n, number body = Val n ∧ number_taken (rooms_table db) n) ∨
     (status = 200 ∧ room_fields_present body = true ∧
      size (rooms_table db') = S (size (rooms_table db)) ∧
      ∃ n, number body = Val n ∧ ¬ number_taken (rooms_table db) n)).
Proof.
  destruct body as [n t c p a s]. unfold room_fields_present.
  cbn [number type capacity price].
  destruct (truthy n) eqn:Hn;
    [|eexists _, _, _; split; [unfold post_rooms; by rewrite Hn|by left]].
  destruct (truthy t) eqn:Ht;
    [|eexists _, _, _; split; [unfold post_rooms; by rewrite Hn, Ht|by left]].
  destruct (truthy c) eqn:Hc;
    [|eexists _, _, _; split; [unfold post_rooms; by rewrite Hn, Ht, Hc|by left]].
  destruct (truthy p) eqn:Hp;
    [|eexists _, _, _; split; [unfold post_rooms; by rewrite Hn, Ht, Hc, Hp|by left]].
  apply truthy_field_val in Hn as (n' & -> & Hn), Ht as (t' & -> & Ht).
  apply truthy_field_val in Hc as (c' & -> & Hc), Hp as (p' & -> & Hp).
  rewrite post_rooms_present by done.
  destruct (decide (number_taken (rooms_table db) n')) as [Hd|Hd].
  - rewrite createRoom_duplicate by done. eexists _, _, _. split; [done|].
    right. left. repeat split; eauto.
  - rewrite createRoom_fresh by done. eexists _, _, _. split; [done|].
    right. right. split; [done|]. split; [done|]. split; [|eauto].
    apply map_size_insert_None, next_rowid_fresh.
Qed.

(** ** Rooms as they are listed *)

(** Where every amenities column is JSON text of labels, the listing answers
    with the view of every selected row, in the order of the selection. *)
Lemma get_rooms_encoded db :
  amenities_encoded (rooms_table db) →
  ∃ items,
    get_rooms db = (db, Respond 200 (JArr items)) ∧
    Forall2 (λ r item, room_view r = Some item)
      (merge_sort by_number (map_to_list (rooms_table db))) items.
Proof.
  intros Ha. unfold get_rooms, select_rooms.
  set (rows := merge_sort by_number (map_to_list (rooms_table db))).
  assert (Forall (λ r, encoded r.2) rows) as Henc.
  { apply Forall_forall. intros [k r] Hk. unfold rows in Hk.
    rewrite merge_sort_Permutation in Hk. apply elem_of_map_to_list in Hk.
    by apply (Ha k r). }
  assert (∃ items, Forall2 (λ r item, room_view r = Some item) rows items)
    as [items Hitems].
  { clear -Henc. induction Henc as [|[k r] l [labels Hl] _ [items IH]].
    - by exists [].
    - eexists (_ :: items). constructor; [|done].
      by apply (room_view_encoded k r labels). }
  exists items. by rewrite (mapM_Some_2 _ _ _ Hitems).
Qed.

(** A stored room is in the listing, with the fields of its row. *)
Lemma stored_room_is_listed db id row labels :
  amenities_encoded (rooms_table db) →
  rooms_table db !! id = Some row →
  rooms.amenities row = Some (JSON_stringify labels) →
  ∃ items,
    get_rooms db = (db, Respond 200 (JArr items)) ∧
    length items = size (rooms_table db) ∧
    JObj [ ("id", JNum (num_of_Z id));
           ("number", JStr (rooms.number row));
           ("type", JStr (rooms.type row));
           ("capacity", JNum (rooms.capacity row));
           ("price", JNum (rooms.price row));
           ("amenities", JArr (JStr <$> labels));
           ("status", column (rooms.status row));
           ("createdAt", JStr (rooms.created_at row)) ] ∈ items.
Proof.
  intros Ha Hrow Hlabels.
  destruct (get_rooms_encoded db Ha) as (items & Hget & Hitems).
  exists items. split; [done|]. split.
  - rewrite <- (Forall2_length _ _ _ Hitems).
    by rewrite merge_sort_Permutation, length_map_to_list.
  - assert ((id, row) ∈ merge_sort by_number (map_to_list (rooms_table db))) as Hin.
    { rewrite merge_sort_Permutation. by apply elem_of_map_to_list. }
    apply list_elem_of_lookup in Hin as [pos Hpos].
    destruct (Forall2_lookup_l _ _ _ _ _ Hitems Hpos) as (item & Hitem & Hview).
    rewrite (room_view_encoded _ _ _ Hlabels) in Hview. injection Hview as <-.
    by eapply list_elem_of_lookup_2.
Qed.

(** X6: a room that was just created is listed.  In a store the service
    has reached, after a successful POST /api/rooms the listing answers 200
    with one item more than there were rooms, and one of the items is the
    new room: the id of the POST answer, the number, type, capacity and
    price of the request, the amenities as the array of the same labels, the
    status (available when absent), and the creation time of the store. *)
Theorem created_room_is_listed rowid_of_text clk db n t c p a s :
  reachable rowid_of_text db →
  truthy n = true → truthy t = true → truthy c = true → truthy p = true →
  ¬ number_taken (rooms_table db) n →
  ∃ db' id payload items,
    post_rooms clk db (RoomBody (Val n) (Val t) (Val c) (Val p) a s)
    = (db', Respond 200 payload) ∧
    (get payload "data" ≫= λ data, get data "id") = Some (JNum (num_of_Z id)) ∧
    get_rooms db' = (db', Respond 200 (JArr items)) ∧
    length items = S (size (rooms_table db)) ∧
    JObj [ ("id", JNum (num_of_Z id));
           ("number", JStr n);
           ("type", JStr t);
           ("capacity", JNum c);
           ("price", JNum p);
           ("amenities", JArr (JStr <$> or_default a []));
           ("status", JStr (or_default s "available"));
           ("createdAt", JStr (CURRENT_TIMESTAMP clk)) ] ∈ items.
Proof.
  intros Hr Hn Ht Hc Hp Hfree.
  assert (reachable rowid_of_text
            (handle rowid_of_text clk db
               (POST_rooms (RoomBody (Val n) (Val t) (Val c) (Val p) a s))).1) as Hr'
    by (by constructor).
  apply reachable_amenities_encoded in Hr'. cbn [handle] in Hr'.
  rewrite post_rooms_present, createRoom_fresh in * by done. cbn [fst] in Hr'.
  set (id := next_rowid (rooms_table db) (rooms_seq db)) in *.
  match type of Hr' with amenities_encoded (rooms_table ?d) => set (db' := d) in * end.
  destruct (stored_room_is_listed db' id
              (rooms.Row n t c p (Some (JSON_stringify (or_default a [])))
                 (Some (or_default s "available")) (CURRENT_TIMESTAMP clk))
              (or_default a []) Hr') as (items & Hget & Hlen & Hin).
  { apply lookup_insert_eq. }
  { done. }
  eexists db', id, _, items. split; [done|]. split; [done|]. split; [done|].
  split; [|done]. rewrite Hlen. apply map_size_insert_None, next_rowid_fresh.
Qed.

Lemma created_room_is_listed_witness :
  reachable decimal opening ∧
  truthy "401" = true ∧ truthy "Suite" = true ∧
  truthy (num_of_Z 4) = true ∧ truthy (num_of_Z 5000) = true ∧
  ¬ number_taken (rooms_table opening) "401" ∧
  ∃ id items,
    get_rooms (post_rooms noon opening suite_401).1
    = ((post_rooms noon opening suite_401).1, Respond 200 (JArr items)) ∧
    length items = 6%nat ∧
    JObj [ ("id", JNum (num_of_Z id));
           ("number", JStr "401");
           ("type", JStr "Suite");
           ("capacity", JNum (num_of_Z 4));
           ("price", JNum (num_of_Z 5000));
           ("amenities", JArr [JStr "WiFi"; JStr "AC"]);
           ("status", JStr "available");
           ("createdAt", JStr "2024-01-01 12:00:00") ] ∈ items.
Proof.
  assert (reachable decimal opening) as Hr by apply reachable_initial.
  assert (¬ number_taken (rooms_table opening) "401") as Hfree.
  { apply (bool_decide_unpack _). vm_compute. reflexivity. }
  split; [exact Hr|]. repeat (split; [done|]).
  destruct (created_room_is_listed decimal noon opening "401" "Suite" (num_of_Z 4)
              (num_of_Z 5000) (Val ["WiFi"; "AC"]) Undefined Hr)
    as (db' & id & payload & items & Hpost & _ & Hget & Hlen & Hin); [done..|].
  exists id, items. change (RoomBody _ _ _ _ _ _) with suite_401 in Hpost.
  rewrite Hpost. cbn [fst]. split; [exact Hget|]. split; [|exact Hin].
  rewrite Hlen. by vm_compute.
Defined.

(** ** Updating a room *)

Lemma alter_lookup_insert {A} (f : A → A) (t : gmap Z A) i x :
  t !! i = Some x → alter f i t = <[i := f x]> t.
Proof.
  intros Hx. apply map_eq. intros k. destruct (decide (i = k)) as [<-|Hne].
  - by rewrite lookup_insert_eq, lookup_alter_eq, Hx.
  - by rewrite lookup_insert_ne, lookup_alter_ne.
Qed.

Lemma put_room_present rowid_of_text db roomId i old n t c p a s :
  rowid_of_text roomId = Some i → rooms_table db !! i = Some old →
  ¬ number_taken (delete i (rooms_table db)) n →
  put_room rowid_of_text db roomId (RoomBody (Val n) (Val t) (Val c) (Val p) a s)
  = ({| submissions_table := submissions_table db;
        submissions_seq := submissions_seq db;
        rooms_table :=
          <[i := rooms.Row n t c p (Some (JSON_stringify (or_default a [])))
                   (bind s) (rooms.created_at old)]> (rooms_table db);
        rooms_seq := rooms_seq db |},
     Respond 200
       (JObj [ ("success", JBool true);
               ("message", JStr "Room updated successfully") ])).
Proof.
  intros Hid Hold Hfree.
  assert (where_id rowid_of_text (rooms_table db) roomId = Some i) as Hw.
  { apply where_id_Some. by rewrite Hold. }
  unfold put_room, update_room. rewrite Hw. cbn [bind mbind result_bind not_null].
  rewrite decide_False by done.
  rewrite (alter_lookup_insert _ _ _ _ Hold).
  by destruct (decide (1%nat = 0%nat)).
Qed.

(** X7: an update replaces the row and nothing else.  For an id that
    designates a stored room, with number, type, capacity and price given
    (whatever their values: the update has no validation, an empty number or
    a zero price is stored) and the number not that of another room, the
    answer is 200; the room keeps its id and creation time and takes the new
    fields, the status becoming NULL when it is absent; the other rooms, the
    room count, the sequence and the submissions are unchanged. *)
Theorem updated_room_is_replaced rowid_of_text db roomId i old n t c p a s :
  rowid_of_text roomId = Some i → rooms_table db !! i = Some old →
  ¬ number_taken (delete i (rooms_table db)) n →
  ∃ db',
    put_room rowid_of_text db roomId (RoomBody (Val n) (Val t) (Val c) (Val p) a s)
    = (db', Respond 200
              (JObj [ ("success", JBool true);
                      ("message", JStr "Room updated successfully") ])) ∧
    rooms_table db' !! i
    = Some (rooms.Row n t c p (Some (JSON_stringify (or_default a [])))
              (bind s) (rooms.created_at old)) ∧
    (∀ j, j ≠ i → rooms_table db' !! j = rooms_table db !! j) ∧
    size (rooms_table db') = size (rooms_table db) ∧
    rooms_seq db' = rooms_seq db ∧
    submissions_table db' = submissions_table db ∧
    submissions_seq db' = submissions_seq db.
Proof.
  intros Hid Hold Hfree. rewrite (put_room_present _ _ _ _ _ _ _ _ _ _ _ Hid Hold Hfree).
  eexists. split; [done|]. cbn.
  split; [apply lookup_insert_eq|].
  split; [intros j Hj; by apply lookup_insert_ne|].
  split; [|done]. apply map_size_insert_Some. by rewrite Hold.
Qed.

Lemma updated_room_is_replaced_witness :
  decimal "3" = Some 3 ∧ rooms_table opening !! 3 = Some room_201 ∧
  ¬ number_taken (delete 3 (rooms_table opening)) "401" ∧
  (put_room decimal opening "3" suite_401).2
  = Respond 200 (JObj [ ("success", JBool true);
                        ("message", JStr "Room updated successfully") ]) ∧
  rooms_table (put_room decimal opening "3" suite_401).1 !! 3
  = Some (rooms.Row "401" "Suite" (num_of_Z 4) (num_of_Z 5000)
            (Some (JSON_stringify ["WiFi"; "AC"])) None "2024-01-01 09:00:00") ∧
  rooms_table (put_room decimal opening "3" suite_401).1 !! 1 = rooms_table opening !! 1.
Proof.
  assert (rooms_table opening !! 3 = Some room_201) as Hold by (by vm_compute).
  assert (¬ number_taken (delete 3 (rooms_table opening)) "401") as Hfree.
  { apply (bool_decide_unpack _). vm_compute. reflexivity. }
  split; [done|]. split; [exact Hold|]. split; [exact Hfree|].
  destruct (updated_room_is_replaced decimal opening "3" 3 room_201 "401" "Suite"
              (num_of_Z 4) (num_of_Z 5000) (Val ["WiFi"; "AC"]) Undefined
              eq_refl Hold Hfree)
    as (db' & Hput & Hrow & Hothers & _).
  change (RoomBody _ _ _ _ _ _) with suite_401 in Hput. rewrite Hput.
  split; [done|]. split; [exact Hrow|]. by apply Hothers.
Defined.

(** X8: an update of a stored room that leaves out number, type, capacity
    or price (absent or null) is not caught by the handler: the statement
    fails on NOT NULL, the answer is 500 with the database error naming the
    first such column, and the store is unchanged. *)
Theorem update_without_required_field rowid_of_text db roomId i body :
  rowid_of_text roomId = Some i → is_Some (rooms_table db !! i) →
  unbound (number body) || unbound (type body)
  || unbound (capacity body) || unbound (price body) = true →
  put_room rowid_of_text db roomId body
  = (db, Respond 500
           (failure ("Database error: SQLITE_CONSTRAINT: NOT NULL constraint failed: rooms." +:+
                     if unbound (number body) then "number"
                     else if unbound (type body) then "type"
                     else if unbound (capacity body) then "capacity"
                     else "price"))).
Proof.
  intros Hid Hi Hmissing.
  assert (where_id rowid_of_text (rooms_table db) roomId = Some i) as Hw
    by (by apply where_id_Some).
  destruct body as [n t c p a s]. cbn [number type capacity price] in *.
  unfold put_room, update_room. rewrite Hw.
  destruct n as [| |n]; [done..|]. destruct t as [| |t]; [done..|].
  destruct c as [| |c]; [done..|]. by destruct p as [| |p].
Qed.

Lemma update_without_required_field_witness :
  decimal "3" = Some 3 ∧ is_Some (rooms_table opening !! 3) ∧
  unbound (number unnumbered_suite) || unbound (type unnumbered_suite)
  || unbound (capacity unnumbered_suite) || unbound (price unnumbered_suite) = true ∧
  put_room decimal opening "3" unnumbered_suite
  = (opening,
     Respond 500
       (failure "Database error: SQLITE_CONSTRAINT: NOT NULL constraint failed: rooms.number")).
Proof.
  split; [done|]. split; [by eexists|]. split; [done|].
  apply (update_without_required_field decimal opening "3" 3 unnumbered_suite);
    [done|by eexists|done].
Defined.

(** X9: an update cannot give a room the number of another room: the
    answer is 500 with the UNIQUE error and the store is unchanged. *)
Theorem update_to_taken_number_rejected rowid_of_text db roomId i j other t c p a s :
  rowid_of_text roomId = Some i → is_Some (rooms_table db !! i) →
  rooms_table db !! j = Some other → j ≠ i →
  put_room rowid_of_text db roomId
    (RoomBody (Val (rooms.number other)) (Val t) (Val c) (Val p) a s)
  = (db, Respond 500
           (failure "Database error: SQLITE_CONSTRAINT: UNIQUE constraint failed: rooms.number")).
Proof.
  intros Hid Hi Hj Hne.
  assert (where_id rowid_of_text (rooms_table db) roomId = Some i) as Hw
    by (by apply where_id_Some).
  unfold put_room, update_room. rewrite Hw. cbn [bind mbind result_bind not_null].
  rewrite decide_True; [done|].
  apply number_taken_lookup. exists j, other. by rewrite lookup_delete_ne.
Qed.

Lemma update_to_taken_number_rejected_witness :
  decimal "3" = Some 3 ∧ is_Some (rooms_table opening !! 3) ∧
  rooms_table opening !! 1 = Some room_101 ∧ 1 ≠ 3 ∧
  put_room decimal opening "3" another_101
  = (opening,
     Respond 500
       (failure "Database error: SQLITE_CONSTRAINT: UNIQUE constraint failed: rooms.number")).
Proof.
  assert (rooms_table opening !! 1 = Some room_101) as Hother by (by vm_compute).
  split; [done|]. split; [by eexists|]. split; [exact Hother|]. split; [done|].
  apply (update_to_taken_number_rejected decimal opening "3" 3 1 room_101 "Suite"
           (num_of_Z 4) (num_of_Z 5000) (Val ["WiFi"]) Undefined);
    [done|by eexists|exact Hother|done].
Defined.

(** X10: an updated room is listed with its new fields.  In a store the
    service has reached, after a successful update the listing answers 200
    with as many items as before, and the item of the updated room has the
    same id and creation time, the new number, type, capacity, price and
    amenities, and the new status, null when the request had none. *)
Theorem updated_room_is_listed rowid_of_text db roomId i old n t c p a s :
  reachable rowid_of_text db →
  rowid_of_text roomId = Some i → rooms_table db !! i = Some old →
  ¬ number_taken (delete i (rooms_table db)) n →
  ∃ db' items,
    (put_room rowid_of_text db roomId
       (RoomBody (Val n) (Val t) (Val c) (Val p) a s)).1 = db' ∧
    get_rooms db' = (db', Respond 200 (JArr items)) ∧
    length items = size (rooms_table db) ∧
    JObj [ ("id", JNum (num_of_Z i));
           ("number", JStr n);
           ("type", JStr t);
           ("capacity", JNum c);
           ("price", JNum p);
           ("amenities", JArr (JStr <$> or_default a []));
           ("status", column (bind s));
           ("createdAt", JStr (rooms.created_at old)) ] ∈ items.
Proof.
  intros Hr Hid Hold Hfree.
  assert (reachable rowid_of_text
            (handle rowid_of_text noon db
               (PUT_room roomId (RoomBody (Val n) (Val t) (Val c) (Val p) a s))).1) as Hr'
    by (by constructor).
  apply reachable_amenities_encoded in Hr'. cbn [handle] in Hr'.
  rewrite (put_room_present _ _ _ _ _ _ _ _ _ _ _ Hid Hold Hfree) in *.
  cbn [fst] in *.
  match type of Hr' with amenities_encoded (rooms_table ?d) => set (db' := d) in * end.
  destruct (stored_room_is_listed db' i
              (rooms.Row n t c p (Some (JSON_stringify (or_default a [])))
                 (bind s) (rooms.created_at old))
              (or_default a []) Hr') as (items & Hget & Hlen & Hin).
  { apply lookup_insert_eq. }
  { done. }
  exists db', items. split; [done|]. split; [done|]. split; [|done].
  rewrite Hlen. apply map_size_insert_Some. by rewrite Hold.
Qed.

Lemma updated_room_is_listed_witness :
  reachable decimal opening ∧
  decimal "3" = Some 3 ∧ rooms_table opening !! 3 = Some room_201 ∧
  ¬ number_taken (delete 3 (rooms_table opening)) "401" ∧
  ∃ items,
    get_rooms (put_room decimal opening "3" suite_401).1
    = ((put_room decimal opening "3" suite_401).1, Respond 200 (JArr items)) ∧
    length items = 5%nat ∧
    JObj [ ("id", JNum (num_of_Z 3));
           ("number", JStr "401");
           ("type", JStr "Suite");
           ("capacity", JNum (num_of_Z 4));
           ("price", JNum (num_of_Z 5000));
           ("amenities", JArr [JStr "WiFi"; JStr "AC"]);
           ("status", JNull);
           ("createdAt", JStr "2024-01-01 09:00:00") ] ∈ items.
Proof.
  assert (reachable decimal opening) as Hr by apply reachable_initial.
  assert (rooms_table opening !! 3 = Some room_201) as Hold by (by vm_compute).
  assert (¬ number_taken (delete 3 (rooms_table opening)) "401") as Hfree.
  { apply (bool_decide_unpack _). vm_compute. reflexivity. }
  split; [exact Hr|]. split; [done|]. split; [exact Hold|]. split; [exact Hfree|].
  destruct (updated_room_is_listed decimal opening "3" 3 room_201 "401" "Suite"
              (num_of_Z 4) (num_of_Z 5000) (Val ["WiFi"; "AC"]) Undefined
              Hr eq_refl Hold Hfree)
    as (db' & items & <- & Hget & Hlen & Hin).
  exists items. split; [exact Hget|]. split; [|exact Hin].
  rewrite Hlen. by vm_compute.
Defined.

(** ** Deleting a room frees its number *)



(** ** Listing the submissions *)

#[local] Instance newest_first_total : Total newest_first.
Proof. intros a b. apply (total String.le). Qed.

#[local] Instance newest_first_transitive : Transitive newest_first.
Proof. intros a b c Hab Hbc. unfold newest_first in *. by etrans. Qed.

Lemma submission_view_listable id row :
  is_Some (submission_view (id, row)) ↔ listable (submissions.content row) = true.
Proof.
  unfold submission_view, listable.
  destruct (JSON_parse _) as [[]|]; cbn; split; intros H; try done;
    try (by eexists); by destruct H.
Qed.

Lemma submission_view_time id row item :
  submission_view (id, row) = Some item →
  get item "submittedAt" = Some (JStr (submissions.created_at row)).
Proof.
  unfold submission_view. destruct (JSON_parse _) as [parsed|]; [|done]. cbn.
  destruct (get parsed "title"); [|done]. cbn.
  destruct (get parsed "description"); [|done]. cbn.
  destruct (get parsed "data"); [|done]. cbn.
  destruct (get parsed "studentId"); [|done]. cbn.
  destruct (get parsed "studentEmail"); [|done]. cbn.
  by intros [= <-].
Qed.

Lemma get_submissions_throws db id row :
  submissions_table db !! id = Some row →
  listable (submissions.content row) = false →
  get_submissions db = (db, Throws).
Proof.
  intros Hrow Hbad. unfold get_submissions, select_submissions.
  destruct (mapM _ _) as [items|] eqn:Hmap; [|done].
  apply mk_is_Some, mapM_is_Some in Hmap.
  assert ((id, row) ∈ merge_sort newest_first (map_to_list (submissions_table db)))
    as Hin.
  { rewrite merge_sort_Permutation. by apply elem_of_map_to_list. }
  rewrite Forall_forall in Hmap. specialize (Hmap _ Hin). cbn in Hmap.
  apply submission_view_listable in Hmap. congruence.
Qed.

(** X12: GET /api/submissions answers exactly when every stored content is
    JSON text of a value other than null.  It then answers 200 with one item
    for each submission, in the order of the selection, which is by creation
    time, newest first, each item showing the creation time of its row;
    otherwise the handler throws and no response is sent. *)
Theorem listing_answers_iff_all_listable db :
  (map_Forall (λ _ row, listable (submissions.content row) = true)
     (submissions_table db) →
   ∃ rows items,
     select_submissions db = Ok rows ∧
     rows ≡ₚ map_to_list (submissions_table db) ∧
     StronglySorted newest_first rows ∧
     get_submissions db = (db, Respond 200 (JArr items)) ∧
     length items = size (submissions_table db) ∧
     Forall2 (λ r item,
                submission_view r = Some item ∧
                get item "submittedAt" = Some (JStr (submissions.created_at r.2)))
       rows items) ∧
  (¬ map_Forall (λ _ row, listable (submissions.content row) = true)
       (submissions_table db) →
   get_submissions db = (db, Throws)).
Proof.
  split.
  - intros Hall.
    set (rows := merge_sort newest_first (map_to_list (submissions_table db))).
    assert (Forall (is_Some ∘ submission_view) rows) as Hsome.
    { apply Forall_forall. intros [k r] Hk. unfold rows in Hk.
      rewrite merge_sort_Permutation in Hk. apply elem_of_map_to_list in Hk.
      apply submission_view_listable. by apply (Hall k r). }
    apply mapM_is_Some in Hsome as [items Hitems].
    exists rows, items. split; [done|].
    split; [apply merge_sort_Permutation|].
    split; [apply StronglySorted_merge_sort; apply _|].
    unfold get_submissions, select_submissions. fold rows. rewrite Hitems.
    split; [done|]. apply mapM_Some in Hitems. split.
    + rewrite <- (Forall2_length _ _ _ Hitems). unfold rows.
      by rewrite merge_sort_Permutation, length_map_to_list.
    + eapply Forall2_impl; [exact Hitems|].
      intros [k r] item Hv. split; [done|]. by apply (submission_view_time k).
  - intros Hnot. apply map_not_Forall in Hnot as (k & r & Hk & Hbad); [|apply _].
    apply (get_submissions_throws db k r Hk). by destruct (listable _).
Qed.

Lemma listing_answers_iff_all_listable_witness :
  map_Forall (λ _ row, listable (submissions.content row) = true)
    (submissions_table (post_submissions noon opening jane_room_request).1) ∧
  (∃ items,
     get_submissions (post_submissions noon opening jane_room_request).1
     = ((post_submissions noon opening jane_room_request).1, Respond 200 (JArr items)) ∧
     length items = 1%nat) ∧
  ¬ map_Forall (λ _ row, listable (submissions.content row) = true)
      (submissions_table (post_submissions noon opening jane_plain_report).1) ∧
  get_submissions (post_submissions noon opening jane_plain_report).1
  = ((post_submissions noon opening jane_plain_report).1, Throws).
Proof.
  assert (map_Forall (λ _ row, listable (submissions.content row) = true)
            (submissions_table (post_submissions noon opening jane_room_request).1))
    as Hall.
  { apply (bool_decide_unpack _). vm_compute. reflexivity. }
  assert (¬ map_Forall (λ _ row, listable (submissions.content row) = true)
              (submissions_table (post_submissions noon opening jane_plain_report).1))
    as Hnot.
  { apply (bool_decide_unpack _). vm_compute. reflexivity. }
  split; [exact Hall|]. split.
  - destruct (proj1 (listing_answers_iff_all_listable _) Hall)
      as (rows & items & _ & _ & _ & Hget & Hlen & _).
    exists items. split; [exact Hget|]. rewrite Hlen. by vm_compute.
  - split; [exact Hnot|].
    exact (proj2 (listing_answers_iff_all_listable _) Hnot).
Defined.

(** X13: one submission that cannot be shown stops the listing for good.
    If the store holds a submission whose content is not JSON text, or is
    the JSON null, then after any further requests GET /api/submissions
    still throws: nothing removes or repairs the row. *)
Theorem unlistable_submission_stops_listing rowid_of_text db id row requests :
  submissions_table db !! id = Some row →
  listable (submissions.content row) = false →
  get_submissions (serve rowid_of_text db requests)
  = (serve rowid_of_text db requests, Throws).
Proof.
  intros Hrow Hbad. apply (get_submissions_throws _ id row); [|done].
  eapply lookup_weaken; [exact Hrow|apply serve_submissions_kept].
Qed.

Lemma unlistable_submission_stops_listing_witness :
  submissions_table (post_submissions noon opening jane_plain_report).1 !! 1
  = Some (submissions.Row "Jane" "report" "hello" "2024-01-01 12:00:00") ∧
  listable "hello" = false ∧
  get_submissions
    (serve decimal (post_submissions noon opening jane_plain_report).1
       [ (noon, POST_submissions jane_room_request); (noon, DELETE_room "1") ])
  = (serve decimal (post_submissions noon opening jane_plain_report).1
       [ (noon, POST_submissions jane_room_request); (noon, DELETE_room "1") ],
     Throws).
Proof.
  assert (submissions_table (post_submissions noon opening jane_plain_report).1 !! 1
          = Some (submissions.Row "Jane" "report" "hello" "2024-01-01 12:00:00"))
    as H by (by vm_compute).
  split; [exact H|]. split; [done|].
  exact (unlistable_submission_stops_listing decimal _ 1 _ _ H eq_refl).
Defined.

(** X14: a submission whose content is the JSON text null passes
    validation and is acknowledged with 200, success and the content null;
    the row is stored, and from then on the listing throws. *)
Theorem null_content_is_accepted_then_unlistable clk db name wt c :
  name ≠ EmptyString → wt ∈ validWorkTypes → JSON_parse c = Some JNull →
  ∃ db' id,
    post_submissions clk db (SubmissionBody (Val name) (Val wt) (Val c))
    = (db', Respond 200
              (JObj [ ("success", JBool true);
                      ("data", JObj [ ("id", JNum (num_of_Z id));
                                      ("studentName", JStr name);
                                      ("workType", JStr wt);
                                      ("content", JNull);
                                      ("submittedAt", JStr (toISOString clk)) ]);
                      ("message", JStr "Submission saved successfully") ])) ∧
    submissions_table db' !! id
    = Some (submissions.Row name wt c (CURRENT_TIMESTAMP clk)) ∧
    get_submissions db' = (db', Throws).
Proof.
  intros Hn Hw Hparse.
  assert (c ≠ EmptyString) as Hc by (by intros ->).
  rewrite (post_submissions_valid _ _ _ _ _ Hn Hw Hc), Hparse.
  eexists _, _. split; [done|].
  assert (∀ t : gmap Z submissions.row,
            <[next_rowid (submissions_table db) (submissions_seq db) :=
                submissions.Row name wt c (CURRENT_TIMESTAMP clk)]> t
            !! next_rowid (submissions_table db) (submissions_seq db)
            = Some (submissions.Row name wt c (CURRENT_TIMESTAMP clk))) as Hin
    by (intros; apply lookup_insert_eq).
  split; [apply Hin|].
  eapply get_submissions_throws; [apply Hin|].
  unfold listable. cbn. by rewrite Hparse.
Qed.

Lemma null_content_is_accepted_then_unlistable_witness :
  "Jane" ≠ EmptyString ∧ "report" ∈ validWorkTypes ∧ JSON_parse "null" = Some JNull ∧
  ∃ db' id,
    post_submissions noon opening jane_null_report
    = (db', Respond 200
              (JObj [ ("success", JBool true);
                      ("data", JObj [ ("id", JNum (num_of_Z id));
                                      ("studentName", JStr "Jane");
                                      ("workType", JStr "report");
                                      ("content", JNull);
                                      ("submittedAt", JStr "2024-01-01T12:00:00.250Z") ]);
                      ("message", JStr "Submission saved successfully") ])) ∧
    get_submissions db' = (db', Throws).
Proof.
  split; [done|]. split; [by apply (bool_decide_unpack _)|]. split; [done|].
  destruct (null_content_is_accepted_then_unlistable noon opening "Jane" "report" "null")
    as (db' & id & Hpost & _ & Hget);
    [done | by apply (bool_decide_unpack _) | done |].
  exists db', id. split; [exact Hpost|exact Hget].
Defined.

(** X15: a content that is JSON text of a number, a string, a boolean or
    an array is listed without error, as an untitled submission: title
    Untitled, empty description, empty data, no student id or email. *)
Theorem plain_content_is_listed_untitled id row v :
  JSON_parse (submissions.content row) = Some v → plain_value v = true →
  submission_view (id, row)
  = Some (JObj
      [ ("id", JNum (num_of_Z id));
        ("studentName", JStr (submissions.student_name row));
        ("type", JStr (submissions.work_type row));
        ("title", JStr "Untitled");
        ("description", JStr EmptyString);
        ("data", JObj []);
        ("submittedAt", JStr (submissions.created_at row));
        ("studentId", JUndefined);
        ("studentEmail", JUndefined) ]).
Proof.
  intros Hparse Hplain. unfold submission_view. rewrite Hparse.
  by destruct v.
Qed.

Lemma plain_content_is_listed_untitled_witness :
  JSON_parse "[1,2]" = Some (JArr [JNum (num_of_Z 1); JNum (num_of_Z 2)]) ∧
  plain_value (JArr [JNum (num_of_Z 1); JNum (num_of_Z 2)]) = true ∧
  submission_view (7, submissions.Row "Jane" "report" "[1,2]" "2024-01-01 12:00:00")
  = Some (JObj
      [ ("id", JNum (num_of_Z 7));
        ("studentName", JStr "Jane");
        ("type", JStr "report");
        ("title", JStr "Untitled");
        ("description", JStr EmptyString);
        ("data", JObj []);
        ("submittedAt", JStr "2024-01-01 12:00:00");
        ("studentId", JUndefined);
        ("studentEmail", JUndefined) ]).
Proof.
  assert (JSON_parse "[1,2]" = Some (JArr [JNum (num_of_Z 1); JNum (num_of_Z 2)]))
    as H by (by vm_compute).
  split; [exact H|]. split; [done|].
  exact (plain_content_is_listed_untitled 7
           (submissions.Row "Jane" "report" "[1,2]" "2024-01-01 12:00:00") _ H eq_refl).
Defined.

(** ** The first variant *)

Lemma v1_get_submissions db :
  V1.get_submissions db
  = (db, Respond 200
           (JObj [ ("success", JBool true);
                   ("data",
                    JArr (V1.submission_record <$>
                            merge_sort newest_first (map_to_list (submissions_table db))));
                   ("count",
                    JNum (num_of_nat
                            (length (merge_sort newest_first
                                       (map_to_list (submissions_table db)))))) ])).
Proof. done. Qed.

Lemma length_select_submissions db :
  length (merge_sort newest_first (map_to_list (submissions_table db)))
  = size (submissions_table db).
Proof. by rewrite merge_sort_Permutation, length_map_to_list. Qed.

(** X16: the first variant always answers.  POST /api/submissions answers
    every body with an envelope, 201 when the body is valid and 400 with the
    store unchanged otherwise, and never throws, whatever the content; GET
    /api/submissions answers 200 in every store, with one record for each
    stored submission and a count equal to their number. *)
Theorem v1_always_answers clk db :
  (∀ body,
     ∃ db' status payload,
       V1.post_submissions clk db body = (db', Respond status payload) ∧
       has_success payload = true ∧
       ((status = 201 ∧ size (submissions_table db') = S (size (submissions_table db))) ∨
        (status = 400 ∧ db' = db))) ∧
  (∃ records,
     V1.get_submissions db
     = (db, Respond 200
              (JObj [ ("success", JBool true);
                      ("data", JArr records);
                      ("count", JNum (num_of_nat (length records))) ])) ∧
     length records = size (submissions_table db)).
Proof.
  split.
  - intros [n w c]. unfold V1.post_submissions.
    destruct (truthy n) eqn:Hn; [|eexists _, _, _; split; [done|]; split; [done|by right]].
    destruct (truthy w) eqn:Hw; [|eexists _, _, _; split; [done|]; split; [done|by right]].
    destruct (truthy c) eqn:Hc; [|eexists _, _, _; split; [done|]; split; [done|by right]].
    cbn [negb orb].
    destruct (includes validWorkTypes w) eqn:Hi;
      [|eexists _, _, _; split; [done|]; split; [done|by right]].
    cbn [negb].
    apply truthy_field_val in Hn as (n' & -> & _), Hw as (w' & -> & _).
    apply truthy_field_val in Hc as (c' & -> & _).
    unfold V1.createSubmission.
    cbn [insert_submission bind not_null mbind result_bind select_submission
         submissions_table].
    rewrite lookup_insert_eq. eexists _, _, _. split; [done|]. split; [done|].
    left. split; [done|]. cbn. apply map_size_insert_None, next_rowid_fresh.
  - rewrite v1_get_submissions.
    exists (V1.submission_record <$>
              merge_sort newest_first (map_to_list (submissions_table db))).
    rewrite length_fmap. split; [done|]. apply length_select_submissions.
Qed.

(** X17: in the first variant a created submission is listed as it was
    answered.  For a valid body, the record in the 201 answer is one of the
    records of the listing that follows, which has one record more than
    there were submissions. *)
Theorem v1_new_submission_is_listed clk db name wt c :
  name ≠ EmptyString → wt ∈ validWorkTypes → c ≠ EmptyString →
  ∃ db' record records,
    V1.post_submissions clk db (SubmissionBody (Val name) (Val wt) (Val c))
    = (db', Respond 201 (JObj [ ("success", JBool true); ("data", record) ])) ∧
    V1.get_submissions db'
    = (db', Respond 200
              (JObj [ ("success", JBool true);
                      ("data", JArr records);
                      ("count", JNum (num_of_nat (length records))) ])) ∧
    record ∈ records ∧
    length records = S (size (submissions_table db)) ∧
    get record "student_name" = Some (JStr name) ∧
    get record "work_type" = Some (JStr wt) ∧
    get record "content" = Some (JStr c) ∧
    get record "created_at" = Some (JStr (CURRENT_TIMESTAMP clk)).
Proof.
  intros Hn Hw Hc. unfold V1.post_submissions. cbn [truthy truthy_field].
  rewrite (nonempty_truthy _ Hn), (nonempty_truthy _ Hc), (valid_truthy _ Hw).
  cbn [negb orb]. apply includes_valid in Hw as ->. cbn [negb].
  unfold V1.createSubmission.
  cbn [insert_submission bind not_null mbind result_bind select_submission
       submissions_table].
  rewrite lookup_insert_eq.
  set (id := next_rowid (submissions_table db) (submissions_seq db)).
  set (row := submissions.Row name wt c (CURRENT_TIMESTAMP clk)).
  eexists _, _,
    (V1.submission_record <$>
       merge_sort newest_first (map_to_list (<[id:=row]> (submissions_table db)))).
  split; [done|]. rewrite v1_get_submissions.
  split; [by rewrite length_fmap|]. cbn [submissions_table]. split.
  - apply (list_elem_of_fmap_2 V1.submission_record _ (id, row)).
    rewrite merge_sort_Permutation. apply elem_of_map_to_list, lookup_insert_eq.
  - split; [|done].
    rewrite length_fmap, merge_sort_Permutation, length_map_to_list.
    apply map_size_insert_None, next_rowid_fresh.
Qed.

Lemma v1_new_submission_is_listed_witness :
  "Jane" ≠ EmptyString ∧ "report" ∈ validWorkTypes ∧ "hello" ≠ EmptyString ∧
  ∃ record records,
    (V1.post_submissions noon opening jane_plain_report).2
    = Respond 201 (JObj [ ("success", JBool true); ("data", record) ]) ∧
    (V1.get_submissions (V1.post_submissions noon opening jane_plain_report).1).2
    = Respond 200
        (JObj [ ("success", JBool true);
                ("data", JArr records);
                ("count", JNum (num_of_nat (length records))) ]) ∧
    record ∈ records ∧
    length records = 1%nat ∧
    get record "content" = Some (JStr "hello").
Proof.
  split; [done|]. split; [by apply (bool_decide_unpack _)|]. split; [done|].
  destruct (v1_new_submission_is_listed noon opening "Jane" "report" "hello")
    as (db' & record & records & Hpost & Hget & Hin & Hlen & _ & _ & Hcontent & _);
    [done | by apply (bool_decide_unpack _) | done |].
  exists record, records. change (SubmissionBody _ _ _) with jane_plain_report in Hpost.
  rewrite Hpost. cbn [fst snd]. rewrite Hget. cbn [snd].
  split; [reflexivity|]. split; [reflexivity|]. split; [exact Hin|].
  split; [|exact Hcontent]. rewrite Hlen. by vm_compute.
Defined.

(** X18: the first variant lists the rooms in an envelope.  In a store the
    service has reached, GET /api/rooms answers 200 with success, the
    records of all the rooms ordered by number, the amenities decoded, and a
    count equal to the number of rooms. *)
Theorem v1_rooms_are_listed rowid_of_text db :
  reachable rowid_of_text db →
  ∃ rows items,
    select_rooms db = Ok rows ∧
    rows ≡ₚ map_to_list (rooms_table db) ∧
    StronglySorted by_number rows ∧
    V1.get_rooms db
    = (db, Respond 200
             (JObj [ ("success", JBool true);
                     ("data", JArr items);
                     ("count", JNum (num_of_nat (size (rooms_table db)))) ])) ∧
    length items = size (rooms_table db) ∧
    Forall2 (λ r item,
               V1.room_record r = Some item ∧
               get item "number" = Some (JStr (rooms.number r.2)) ∧
               ∃ labels, get item "amenities" = Some (JArr (JStr <$> labels)) ∧
                         rooms.amenities r.2 = Some (JSON_stringify labels))
      rows items.
Proof.
  intros Hr. apply reachable_amenities_encoded in Hr.
  set (rows := merge_sort by_number (map_to_list (rooms_table db))).
  assert (length rows = size (rooms_table db)) as Hlen.
  { unfold rows. by rewrite merge_sort_Permutation, length_map_to_list. }
  assert (Forall (λ r, encoded r.2) rows) as Henc.
  { apply Forall_forall. intros [k r] Hk. unfold rows in Hk.
    rewrite merge_sort_Permutation in Hk. apply elem_of_map_to_list in Hk.
    by apply (Hr k r). }
  assert (∃ items,
            Forall2 (λ r item,
               V1.room_record r = Some item ∧
               get item "number" = Some (JStr (rooms.number r.2)) ∧
               ∃ labels, get item "amenities" = Some (JArr (JStr <$> labels)) ∧
                         rooms.amenities r.2 = Some (JSON_stringify labels))
              rows items) as [items Hitems].
  { clear -Henc. induction Henc as [|[k r] l [labels Hl] _ [items IH]].
    - by exists [].
    - cbn in Hl. eexists (_ :: items). constructor; [|done]. cbn.
      unfold read_amenities. rewrite Hl.
      rewrite JSON_stringify_truthy, JSON_parse_stringify. cbn.
      split; [done|]. split; [done|]. by exists labels. }
  exists rows, items. split; [done|].
  split; [apply merge_sort_Permutation|].
  split; [apply StronglySorted_merge_sort; apply _|].
  assert (mapM V1.room_record rows = Some items) as Hmap.
  { apply mapM_Some. eapply Forall2_impl; [exact Hitems|]. by intros ? ? [? _]. }
  unfold V1.get_rooms, select_rooms. fold rows. rewrite Hmap, Hlen.
  split; [done|]. split; [|done].
  by rewrite <- (Forall2_length _ _ _ Hitems).
Qed.

Lemma v1_rooms_are_listed_witness :
  reachable decimal (handle decimal noon opening (POST_rooms suite_401)).1 ∧
  ∃ items,
    V1.get_rooms (handle decimal noon opening (POST_rooms suite_401)).1
    = ((handle decimal noon opening (POST_rooms suite_401)).1,
       Respond 200
         (JObj [ ("success", JBool true);
                 ("data", JArr items);
                 ("count", JNum (num_of_Z 6)) ])) ∧
    length items = 6%nat.
Proof.
  assert (reachable decimal (handle decimal noon opening (POST_rooms suite_401)).1) as Hr.
  { apply reachable_step, reachable_initial. }
  split; [exact Hr|].
  destruct (v1_rooms_are_listed decimal _ Hr)
    as (rows & items & _ & _ & _ & Hget & Hlen & _).
  exists items. rewrite Hget, Hlen. split; by vm_compute.
Defined.

(** ** Each route writes its own table *)

(** X19: only POST /api/submissions writes the submissions table and its
    sequence, and only the POST, PUT and DELETE routes of the rooms write
    the rooms table and its sequence; this holds whatever the request
    answers, and also when the handler throws. *)
Theorem routes_write_only_their_table rowid_of_text clk db req :
  ((∀ body, req ≠ POST_submissions body) →
   submissions_table (handle rowid_of_text clk db req).1 = submissions_table db ∧
   submissions_seq (handle rowid_of_text clk db req).1 = submissions_seq db) ∧
  ((∀ body, req ≠ POST_rooms body) →
   (∀ roomId body, req ≠ PUT_room roomId body) →
   (∀ roomId, req ≠ DELETE_room roomId) →
   rooms_table (handle rowid_of_text clk db req).1 = rooms_table db ∧
   rooms_seq (handle rowid_of_text clk db req).1 = rooms_seq db).
Proof.
  destruct req as [| | |b| |b|i b|i| |]; cbn [handle].
  - done.
  - done.
  - unfold get_submissions, select_submissions. by destruct (mapM _ _).
  - split; [intros H; by destruct (H b)|]. intros _ _ _.
    destruct b as [n w c]. unfold post_submissions.
    destruct (_ || _); [done|]. destruct (negb _); [done|].
    unfold createSubmission.
    destruct (bind n), (bind w), (bind c); cbn; try done.
    by destruct (JSON_parse _).
  - unfold get_rooms, select_rooms. by destruct (mapM _ _).
  - split; [|intros H; by destruct (H b)]. intros _.
    destruct b as [n t c p a s]. unfold post_rooms.
    destruct (_ || _); [done|]. unfold createRoom.
    destruct (bind n), (bind t), (bind c), (bind p); cbn; try done.
    by destruct (decide _).
  - split; [|intros _ H; by destruct (H i b)]. intros _.
    destruct b as [n t c p a s]. unfold put_room, update_room.
    destruct (where_id _ _ _); [|done].
    destruct (bind n), (bind t), (bind c), (bind p); cbn; try done.
    by destruct (decide _).
  - split; [|intros _ _ H; by destruct (H i)]. intros _.
    unfold delete_room_by_id, delete_room. by destruct (where_id _ _ _).
  - done.
  - done.
Qed.

Lemma routes_write_only_their_table_witness :
  (∀ body, DELETE_room "3" ≠ POST_submissions body) ∧
  submissions_table (handle decimal noon opening (DELETE_room "3")).1
  = submissions_table opening ∧
  (∀ body, POST_submissions jane_plain_report ≠ POST_rooms body) ∧
  (∀ roomId body, POST_submissions jane_plain_report ≠ PUT_room roomId body) ∧
  (∀ roomId, POST_submissions jane_plain_report ≠ DELETE_room roomId) ∧
  (handle decimal noon opening (POST_submissions jane_plain_report)).2 = Throws ∧
  rooms_table (handle decimal noon opening (POST_submissions jane_plain_report)).1
  = rooms_table opening.
Proof.
  split; [done|]. split.
  - apply (routes_write_only_their_table decimal noon opening (DELETE_room "3")). done.
  - split; [done|]. split; [done|]. split; [done|]. split; [by vm_compute|].
    by apply (routes_write_only_their_table decimal noon opening
                (POST_submissions jane_plain_report)).
Defined.
